(** * rpsls-dapp: the commit-reveal client, embedded and verified

    The repository is the browser client of a two-party
    Rock-Paper-Scissors-Lizard-Spock wager: [hashHelpers.js] (salt,
    commitment, move encoding), and the React components [GameCreation],
    [GameJoin], [GameReveal] and [GameStatus].  Each handler is embedded
    as a pure function from the component state and the values read from
    the environment (signer, contract reads, clock) to the action the
    handler takes: an alert, or the contract call it issues.  What a
    handler only shows or keeps for the user (the text of an alert, the
    console, the copies in localStorage, the rendering) is left out
    there; the last modules of Part I take the handlers to their end,
    with what they write to localStorage and what they do to the form
    once the transaction is through.

    Part I holds the definitions, module by source file; Part II the
    lemmas and theorems. *)

From Stdlib Require Import ZArith List String Ascii Bool Lia.
From Stdlib Require Import PrimFloat Uint63.
Import ListNotations.
Open Scope Z_scope.

(* ===================================================================== *)
(** * Part I: definitions *)
(* ===================================================================== *)

(** ** JavaScript Numbers that hold integers

    A JavaScript Number is an IEEE 754 binary64 value.  Every Number
    the client computes with is integer-valued (move codes, seconds),
    so a Number is represented by the integer it holds, and the result
    of an arithmetic operation is the exact result rounded to the
    nearest integer that binary64 can hold, ties to even ([toNumber]).
    Integers up to 2^53 in magnitude are held exactly; beyond, only
    multiples of a power of two are.  Comparisons are exact.
    Magnitudes of 2^1024 and more (Infinity) are outside the model. *)
Module JSNumber.

(** Number of low bits that binary64 drops from a positive integer [a]:
    the significand keeps 53 bits. *)
Definition dropped_bits (a : Z) : Z := Z.max 0 (Z.log2 a - 52).

(** Round the non-negative integer [a] to a multiple of [2^e], to
    nearest, ties to the even quotient. *)
Definition round_to_multiple (a e : Z) : Z :=
  let q := a / 2 ^ e in
  let r := a mod 2 ^ e in
  let half := 2 ^ (e - 1) in
  if e =? 0 then a
  else if r <? half then q * 2 ^ e
  else if half <? r then (q + 1) * 2 ^ e
  else if Z.even q then q * 2 ^ e
  else (q + 1) * 2 ^ e.

(** [Number(z)] for a BigInt [z], and the rounding step of [+] and [-]. *)
Definition toNumber (z : Z) : Z :=
  Z.sgn z * round_to_multiple (Z.abs z) (dropped_bits (Z.abs z)).

(** [x + y] and [x - y] on Numbers. *)
Definition add (x y : Z) : Z := toNumber (x + y).
Definition sub (x y : Z) : Z := toNumber (x - y).

(** [!x] on a Number that holds an integer, and on a BigInt: only zero
    is falsy. *)
Definition falsy (x : Z) : bool := x =? 0.

(** A Number is an integer that binary64 holds. *)
Definition representable (z : Z) : bool := toNumber z =? z.

(** The safe integers: [Number.MAX_SAFE_INTEGER] is 2^53 - 1. *)
Definition MAX_SAFE_INTEGER : Z := 2 ^ 53 - 1.
Definition isSafeInteger (z : Z) : bool :=
  (- MAX_SAFE_INTEGER <=? z) && (z <=? MAX_SAFE_INTEGER).

(** The kernel's binary64 value of a natural number below 2^63, used to
    check [add] and [sub] against the hardware operations. *)
Definition binary64 (z : Z) : float := PrimFloat.of_uint63 (Uint63.of_Z z).

(** [toNumber z] is the integer to which the kernel rounds [z], and it
    is held exactly. *)
Definition roundsAsBinary64 (z : Z) : bool :=
  PrimFloat.eqb (binary64 z) (binary64 (toNumber z))
  && (toNumber (toNumber z) =? toNumber z).

(** Integers around the powers of two from 2^52 to 2^62, with the ties
    between two neighbours among them. *)
Definition roundingSamples : list Z :=
  flat_map
    (fun base =>
       map (fun d => base + d)
           [0; 1; 2; 3; 4; 5; 6; 7; 8; 9; 10; 11; 12; 13; 14; 15; 16; 17;
            31; 32; 33; 63; 64; 65; 127; 128; 129; 255; 256; 257;
            1023; 1024; 1025])
    [0; 2 ^ 52; 2 ^ 53 - 20; 2 ^ 53; 2 ^ 54 - 20; 2 ^ 54; 2 ^ 55 - 300;
     2 ^ 55; 2 ^ 56; 2 ^ 57 - 1030; 2 ^ 60; 2 ^ 61; 2 ^ 62 - 2000;
     3 * 2 ^ 60; 5 * 2 ^ 59 + 12345].

End JSNumber.

(** ** JavaScript strings

    Strings are sequences of 8-bit characters; the handlers only look at
    ASCII content (hex digits, the prefix 0x, addresses). *)
Module JSString.

(** [s.startsWith(p)] *)
Fixpoint startsWith (s p : string) {struct p} : bool :=
  match p, s with
  | EmptyString, _ => true
  | String _ _, EmptyString => false
  | String c p', String d s' => Ascii.eqb d c && startsWith s' p'
  end.

(** [s.slice(n)] for a non-negative [n]. *)
Fixpoint slice (s : string) (n : nat) {struct n} : string :=
  match n, s with
  | O, _ => s
  | S _, EmptyString => EmptyString
  | S k, String _ rest => slice rest k
  end.

(** [c.repeat(n)] for a one-character string. *)
Fixpoint repeat (c : ascii) (n : nat) : string :=
  match n with
  | O => EmptyString
  | S k => String c (repeat c k)
  end.

(** [s.padStart(n, c)] with a one-character filler. *)
Definition padStart (s : string) (n : nat) (c : ascii) : string :=
  (repeat c (n - String.length s) ++ s)%string.

(** [!s] on a string: only the empty string is falsy. *)
Definition falsy (s : string) : bool :=
  match s with EmptyString => true | _ => false end.

Definition isUpper (c : ascii) : bool :=
  let n := nat_of_ascii c in (65 <=? n)%nat && (n <=? 90)%nat.

Definition toLowerChar (c : ascii) : ascii :=
  if isUpper c then ascii_of_nat (nat_of_ascii c + 32) else c.

(** [s.toLowerCase()] on ASCII content. *)
Fixpoint toLowerCase (s : string) : string :=
  match s with
  | EmptyString => EmptyString
  | String c rest => String (toLowerChar c) (toLowerCase rest)
  end.

(** White space, as StringToBigInt trims it, among the characters a
    string of the model can hold (code units below 256): TAB, LF, VT,
    FF, CR, SPACE and the no-break space U+00A0.  U+FEFF, U+2028 and
    the other white space above 255 cannot occur in a [string]. *)
Definition isWhiteSpace (c : ascii) : bool :=
  let n := nat_of_ascii c in
  ((9 <=? n)%nat && (n <=? 13)%nat) || (n =? 32)%nat || (n =? 160)%nat.

Fixpoint trimEnd (s : string) : string :=
  match s with
  | EmptyString => EmptyString
  | String c rest =>
      match trimEnd rest with
      | EmptyString => if isWhiteSpace c then EmptyString else String c EmptyString
      | t => String c t
      end
  end.

(** Value of a hexadecimal digit, either case. *)
Definition hexDigitValue (c : ascii) : option Z :=
  let n := Z.of_nat (nat_of_ascii c) in
  if (48 <=? n) && (n <=? 57) then Some (n - 48)
  else if (97 <=? n) && (n <=? 102) then Some (n - 87)
  else if (65 <=? n) && (n <=? 70) then Some (n - 55)
  else None.

Definition isHexDigit (c : ascii) : bool :=
  match hexDigitValue c with Some _ => true | None => false end.

Fixpoint allHex (s : string) : bool :=
  match s with
  | EmptyString => true
  | String c rest => isHexDigit c && allHex rest
  end.

(** Digits read most significant first, onto the accumulator [acc]. *)
Fixpoint parseHex (acc : Z) (s : string) : option Z :=
  match s with
  | EmptyString => Some acc
  | String c rest =>
      match hexDigitValue c with
      | Some d => parseHex (16 * acc + d) rest
      | None => None
      end
  end.

(** [BigInt("0x" + digits)]: both call sites of the source build the
    argument this way.  StringToBigInt trims white space (only the end
    can carry any here), then wants at least one hexadecimal digit after
    the prefix; [None] is the SyntaxError it throws otherwise. *)
Definition BigInt_0x (digits : string) : option Z :=
  match trimEnd digits with
  | EmptyString => None
  | t => parseHex 0 t
  end.

End JSString.

(** ** Exceptions

    A function that can throw returns a [result]; [Throw] carries the
    exception. *)
Inductive exn : Type :=
| Error (message : string)     (* throw new Error(message) *)
| SyntaxError                  (* BigInt of a string that is no number *)
| InvalidArgument.             (* ethers: a value does not fit its type *)

Inductive result (A : Type) : Type :=
| Return (a : A)
| Throw (e : exn).
Arguments Return {A} a.
Arguments Throw {A} e.

Definition bind {A B : Type} (r : result A) (k : A -> result B) : result B :=
  match r with
  | Return a => k a
  | Throw e => Throw e
  end.

Notation "x <- r ;; k" := (bind r (fun x => k))
  (at level 61, r at next level, right associativity).

Definition orThrow {A : Type} (o : option A) (e : exn) : result A :=
  match o with
  | Some a => Return a
  | None => Throw e
  end.

(** ** The parts of ethers the helpers call

    Byte strings are lists of integers in 0..255. *)
Module Ethers.

(** Lower-case hexadecimal digit of a value in 0..15. *)
Definition hexChar (d : Z) : ascii :=
  if d <? 10 then ascii_of_nat (Z.to_nat (48 + d))
  else ascii_of_nat (Z.to_nat (87 + d)).

Fixpoint hexDigits (bytes : list Z) : string :=
  match bytes with
  | [] => EmptyString
  | b :: rest => String (hexChar (b / 16)) (String (hexChar (b mod 16)) (hexDigits rest))
  end.

(** [ethers.hexlify(bytes)]: 0x, then two digits per byte. *)
Definition hexlify (bytes : list Z) : string :=
  String "0" (String "x" (hexDigits bytes)).

Definition isByte (b : Z) : bool := (0 <=? b) && (b <? 256).

(** The [n] bytes of [z], most significant first (the value modulo
    [256^n]). *)
Fixpoint bigEndian (n : nat) (z : Z) : list Z :=
  match n with
  | O => []
  | S k => bigEndian k (z / 256) ++ [z mod 256]
  end.

(** The integer a byte string holds, most significant byte first. *)
Definition fromBigEndian (bytes : list Z) : Z :=
  fold_left (fun acc b => 256 * acc + b) bytes 0.

(** [AbiCoder.defaultAbiCoder().encode(["uint8", "uint256"], [m, v])]:
    each value in a word of 32 bytes of its own, most significant byte
    first; a value outside its type is refused. *)
Definition abiEncode_uint8_uint256 (m v : Z) : result (list Z) :=
  if (0 <=? m) && (m <? 2 ^ 8) && (0 <=? v) && (v <? 2 ^ 256)
  then Return (bigEndian 32 m ++ bigEndian 32 v)
  else Throw InvalidArgument.

(** What [solidityPacked(["uint8", "uint256"], [m, v])] lays out, and
    what [keccak256(_c1, _salt)] of Solidity 0.4 hashes: one byte for
    the uint8, 32 for the uint256. *)
Definition solidityPacked_uint8_uint256 (m v : Z) : list Z :=
  bigEndian 1 m ++ bigEndian 32 v.

(** *** Models of three library functions

    The handlers take [ethers.isAddress], [ethers.parseEther] and
    [ethers.formatEther] as parameters, and the theorems hold whatever
    function stands in their place.  The definitions below follow the
    library (ethers 6) and serve to run a handler on concrete inputs. *)

Definition isDecimalDigit (c : ascii) : bool :=
  let n := nat_of_ascii c in (48 <=? n)%nat && (n <=? 57)%nat.

Fixpoint allDecimal (s : string) : bool :=
  match s with
  | EmptyString => true
  | String c rest => isDecimalDigit c && allDecimal rest
  end.

Fixpoint parseDecimal (acc : Z) (s : string) : Z :=
  match s with
  | EmptyString => acc
  | String c rest => parseDecimal (10 * acc + (Z.of_nat (nat_of_ascii c) - 48)) rest
  end.

(** The text before the first dot, and the text after it if there is
    one. *)
Fixpoint splitAtDot (s : string) : string * option string :=
  match s with
  | EmptyString => (EmptyString, None)
  | String c rest =>
      if Ascii.eqb c "." then (EmptyString, Some rest)
      else let (w, f) := splitAtDot rest in (String c w, f)
  end.

Fixpoint allZero (s : string) : bool :=
  match s with
  | EmptyString => true
  | String c rest => Ascii.eqb c "0" && allZero rest
  end.

(** [parseEther(s)], that is [parseUnits(s, 18)]: an optional minus
    sign, digits, an optional dot and digits, at least one digit in
    all, and no non-zero digit past the 18th decimal. *)
Definition parseEther (s : string) : option Z :=
  let (sign, body) :=
    match s with
    | String c rest => if Ascii.eqb c "-" then (-1, rest) else (1, s)
    | EmptyString => (1, s)
    end in
  let (whole, f) := splitAtDot body in
  let frac := match f with Some d => d | None => EmptyString end in
  if allDecimal whole && allDecimal frac
     && (0 <? String.length whole + String.length frac)%nat
     && allZero (JSString.slice frac 18)
  then
    let padded := (frac ++ JSString.repeat "0" (18 - String.length frac))%string in
    Some (sign * (parseDecimal 0 whole * 10 ^ 18
                  + parseDecimal 0 (String.substring 0 18 padded)))
  else None.

Fixpoint decimalDigits (fuel : nat) (n : Z) (acc : string) : string :=
  match fuel with
  | O => acc
  | S k =>
      let acc' := String (ascii_of_nat (Z.to_nat (48 + n mod 10))) acc in
      if n <? 10 then acc' else decimalDigits k (n / 10) acc'
  end.

(** [n.toString()] for a non-negative BigInt. *)
Definition toDecimal (n : Z) : string :=
  decimalDigits (S (Z.to_nat (Z.log2 n))) n EmptyString.

(** The digits of [s] without the zeros at its end. *)
Fixpoint trimZerosEnd (s : string) : string :=
  match s with
  | EmptyString => EmptyString
  | String c rest =>
      match trimZerosEnd rest with
      | EmptyString => if Ascii.eqb c "0" then EmptyString else String c EmptyString
      | t => String c t
      end
  end.

(** [formatEther(v)], that is [formatUnits(v, 18)]: the whole part, a
    dot, and the 18 decimals without the zeros at their end, one digit
    at least. *)
Definition formatEther (v : Z) : string :=
  let a := Z.abs v in
  let frac := JSString.padStart (toDecimal (a mod 10 ^ 18)) 18 "0" in
  let shown := match trimZerosEnd frac with
               | EmptyString => "0"%string
               | t => t
               end in
  let sign := if v <? 0 then "-"%string else EmptyString in
  (sign ++ toDecimal (a / 10 ^ 18) ++ "." ++ shown)%string.

Definition isLowerHex (c : ascii) : bool :=
  let n := nat_of_ascii c in (97 <=? n)%nat && (n <=? 102)%nat.
Definition isUpperHex (c : ascii) : bool :=
  let n := nat_of_ascii c in (65 <=? n)%nat && (n <=? 70)%nat.

Fixpoint existsChar (p : ascii -> bool) (s : string) : bool :=
  match s with
  | EmptyString => false
  | String c rest => p c || existsChar p rest
  end.

(** [isAddress(s)] on strings whose letters are all of one case: 40
    hexadecimal digits, with or without 0x.  A string of mixed case
    passes the library only with the right checksum, which is a
    keccak256 digest, and the ICAP form needs base 36; this model
    answers false on both. *)
Definition isAddress (s : string) : bool :=
  let body := if JSString.startsWith s "0x" then JSString.slice s 2 else s in
  (String.length body =? 40)%nat && JSString.allHex body
  && negb (existsChar isLowerHex body && existsChar isUpperHex body).

End Ethers.

(** ** src/utils/hashHelpers.js *)
Module HashHelpers.

Section Hash.

(** [ethers.keccak256], from bytes to the 0x string of the digest. *)
Variable keccak256 : list Z -> string.

(** [generateSalt()], given the 32 bytes [ethers.randomBytes(32)]
    returned. *)
Definition generateSalt (randomBytes : list Z) : string :=
  Ethers.hexlify randomBytes.

Definition moveRangeMessage : string :=
  "Move must be 1-5 (Rock, Paper, Scissors, Spock, Lizard)".

(** The bytes [createCommitment] hands to [keccak256].  The source
    documents the function as matching the contract's
    keccak256(uint8, uint256), notes that in Solidity 0.4.26
    keccak256(a, b) does packed encoding, and encodes with
    [AbiCoder.defaultAbiCoder().encode]. *)
Definition createCommitment_encoded (moveIndex : Z) (saltHex : string)
  : result (list Z) :=
  if (moveIndex <? 1) || (5 <? moveIndex) then Throw (Error moveRangeMessage)
  else
    let salt :=
      if JSString.startsWith saltHex "0x" then saltHex
      else ("0x" ++ saltHex)%string in
    let saltClean := JSString.padStart (JSString.slice salt 2) 64 "0" in
    saltBigInt <- orThrow (JSString.BigInt_0x saltClean) SyntaxError ;;
    Ethers.abiEncode_uint8_uint256 moveIndex saltBigInt.

Definition createCommitment (moveIndex : Z) (saltHex : string) : result string :=
  encoded <- createCommitment_encoded moveIndex saltHex ;;
  Return (keccak256 encoded).

End Hash.

(** [return uiMove + 1] and [return contractMove - 1], on Numbers. *)
Definition uiMoveToContract (uiMove : Z) : Z := JSNumber.add uiMove 1.

Definition contractMoveToUI (contractMove : Z) : Z := JSNumber.sub contractMove 1.

Definition moves : list string :=
  ["Rock"; "Paper"; "Scissors"; "Spock"; "Lizard"]%string.

(** [moves[uiMove]], undefined outside 0..4. *)
Definition movesAt (uiMove : Z) : option string :=
  if uiMove <? 0 then None else nth_error moves (Z.to_nat uiMove).

Definition getMoveName (uiMove : Z) : string :=
  match movesAt uiMove with
  | Some name => name
  | None => "Unknown"%string
  end.

End HashHelpers.

(** ** The moves and the rules the client shows

    [GameStatus.jsx] names the contract's move codes:
    [MOVES = ["Null", "Rock", "Paper", "Scissors", "Spock", "Lizard"]]. *)
Module MoveRules.

Inductive Move : Type := Null | Rock | Paper | Scissors | Spock | Lizard.

Definition Move_eqb (a b : Move) : bool :=
  match a, b with
  | Null, Null | Rock, Rock | Paper, Paper
  | Scissors, Scissors | Spock, Spock | Lizard, Lizard => true
  | _, _ => false
  end.

(** The contract's code of a move: its index in [MOVES]. *)
Definition code (m : Move) : Z :=
  match m with
  | Null => 0 | Rock => 1 | Paper => 2 | Scissors => 3 | Spock => 4 | Lizard => 5
  end.

(** The Game Rules list of [App.jsx], one entry per line: the move and
    the two moves it defeats.
      Rock crushes Scissors and Lizard
      Paper covers Rock and disproves Spock
      Scissors cuts Paper and decapitates Lizard
      Spock vaporizes Rock and smashes Scissors
      Lizard eats Paper and poisons Spock *)
Definition gameRules : list (Move * (Move * Move)) :=
  [ (Rock,     (Scissors, Lizard));
    (Paper,    (Rock,     Spock));
    (Scissors, (Paper,    Lizard));
    (Spock,    (Rock,     Scissors));
    (Lizard,   (Paper,    Spock)) ].

Fixpoint dominanceSetIn (rules : list (Move * (Move * Move))) (a : Move) : list Move :=
  match rules with
  | [] => []
  | (w, (l1, l2)) :: rest =>
      if Move_eqb w a then [l1; l2] else dominanceSetIn rest a
  end.

(** The moves that [a] defeats. *)
Definition dominanceSet (a : Move) : list Move := dominanceSetIn gameRules a.

Inductive Outcome : Type := FirstWins | SecondWins | Tie.

(** Modelled from the spec: the function that adjudicates two moves is
    the contract's, shipped as bytecode and not under src/; the client
    only prints the rules.  Section 4.1: beats(a,b): if a==b then Tie;
    else if b is in the dominance set of a then FirstWins; else
    SecondWins.  The dominance sets are those of [gameRules]. *)
Definition beats (a b : Move) : Outcome :=
  if Move_eqb a b then Tie
  else if existsb (Move_eqb b) (dominanceSet a) then FirstWins
  else SecondWins.

End MoveRules.

(** ** The contract as the client reads it

    The getters the components call: [j1()], [j2()], [c1Hash()], [c2()],
    [stake()], [lastAction()] and [TIMEOUT()].  Addresses and the hash
    are strings, the numbers BigInts. *)
Record contractReads : Type := {
  j1 : string;
  j2 : string;
  c1Hash : string;
  c2 : Z;
  stake : Z;
  lastAction : Z;
  TIMEOUT : Z
}.

(** The account an address string names: its hexadecimal digits in
    lower case, without the optional 0x. *)
Definition account (address : string) : string :=
  JSString.toLowerCase
    (if JSString.startsWith address "0x" then JSString.slice address 2
     else address).


(** Case-insensitive comparison of two addresses, as every component
    writes it: [a.toLowerCase() === b.toLowerCase()]. *)
Definition sameAddress (a b : string) : bool :=
  String.eqb (JSString.toLowerCase a) (JSString.toLowerCase b).

(** ** src/components/GameStatus.jsx *)
Module GameStatus.

Definition MOVES : list string :=
  ["Null"; "Rock"; "Paper"; "Scissors"; "Spock"; "Lizard"]%string.

Definition TIMEOUT_MINUTES : Z := 5.

(** The phases [loadGameState] tells apart. *)
Definition phaseUnknown : string := "Unknown".
Definition phaseCompleted : string := "Game Completed (stake withdrawn)".
Definition phaseWaitingForPlayer2 : string := "Waiting for Player 2 to join".
Definition phaseWaitingForReveal : string :=
  "Player 2 joined, waiting for Player 1 to reveal".

(** The object [loadGameState] stores; [lastActionDate], a string in the
    browser's locale, is left out. *)
Record gameState : Type := {
  gs_j1 : string;
  gs_j2 : string;
  gs_c1Hash : string;
  gs_c2 : Z;
  c2Name : string;
  gs_stake : string;
  stakeWei : Z;
  gs_lastAction : Z;
  timeout : Z;
  timeSinceLastAction : Z;
  isTimedOut : bool;
  canTimeout : bool;
  timeoutFunction : option string;
  phase : string;
  isJ1 : bool;
  isJ2 : bool;
  userAddress : string
}.

Inductive alert : Type :=
| EnterValidContractAddress    (* Please enter a valid contract address! *)
| ErrorLoadingGameState        (* Error loading game state: ... *)
| CannotCallTimeout            (* Cannot call timeout! *)
| OnlyPlayer2CanCallJ1Timeout  (* Only Player 2 can call j1Timeout! *)
| OnlyPlayer1CanCallJ2Timeout  (* Only Player 1 can call j2Timeout! *)
| TimeoutCallFailed.           (* Timeout call failed: ... *)

Inductive loadOutcome : Type :=
| Loaded (state : gameState)
| LoadAlert (a : alert).

(** What [callTimeout] does: an alert, or the transaction it sends. *)
Inductive timeoutOutcome : Type :=
| TimeoutAlert (a : alert)
| Send_j1Timeout
| Send_j2Timeout.

(** The three variables the phase analysis assigns. *)
Record phaseVars : Type := {
  pv_phase : string;
  pv_canTimeout : bool;
  pv_timeoutFunction : option string
}.

Definition setPhase (p : string) (v : phaseVars) : phaseVars :=
  {| pv_phase := p; pv_canTimeout := pv_canTimeout v;
     pv_timeoutFunction := pv_timeoutFunction v |}.

Definition allowTimeout (fn : string) (v : phaseVars) : phaseVars :=
  {| pv_phase := pv_phase v; pv_canTimeout := true;
     pv_timeoutFunction := Some fn |}.

(** The block under the comment Determine game phase. *)
Definition determinePhase (stakeNumber c2Number : Z) (timedOut : bool) : phaseVars :=
  let v := {| pv_phase := phaseUnknown; pv_canTimeout := false;
              pv_timeoutFunction := None |} in
  if stakeNumber =? 0 then setPhase phaseCompleted v
  else if c2Number =? 0 then
    let v := setPhase phaseWaitingForPlayer2 v in
    if timedOut then allowTimeout "j2Timeout" v (* j1 can claim timeout *) else v
  else
    let v := setPhase phaseWaitingForReveal v in
    if timedOut then allowTimeout "j1Timeout" v (* j2 can claim timeout *) else v.

Section Library.

(** [ethers.isAddress] and [ethers.formatEther]. *)
Variable isAddress : string -> bool.
Variable formatEther : Z -> string.

(** [formatEth] of hashHelpers.js; [formatEther] does not throw on a
    BigInt. *)
Definition formatEth (weiAmount : Z) : string := formatEther weiAmount.

(** [loadGameState()]: [reads] is what the seven getters returned
    ([None] when one of them rejects), [signer] the address of
    [provider.getSigner()] ([None] when it rejects), [currentTime] is
    [Math.floor(Date.now() / 1000)]. *)
Definition loadGameState (contractAddress : string) (reads : option contractReads)
    (signer : option string) (currentTime : Z) : loadOutcome :=
  if JSString.falsy contractAddress || negb (isAddress contractAddress)
  then LoadAlert EnterValidContractAddress
  else
    match reads, signer with
    | Some r, Some signerAddress =>
        let c2Number := JSNumber.toNumber (c2 r) in
        let stakeNumber := stake r in
        let lastActionNumber := JSNumber.toNumber (lastAction r) in
        let timeoutSeconds := JSNumber.toNumber (TIMEOUT r) in
        let timeSince := JSNumber.sub currentTime lastActionNumber in
        let timedOut := timeoutSeconds <? timeSince in
        let vars := determinePhase stakeNumber c2Number timedOut in
        Loaded
          {| gs_j1 := j1 r;
             gs_j2 := j2 r;
             gs_c1Hash := c1Hash r;
             gs_c2 := c2Number;
             c2Name := match (if c2Number <? 0 then None
                              else nth_error MOVES (Z.to_nat c2Number)) with
                       | Some name => name
                       | None => "Not played"%string
                       end;
             gs_stake := formatEth stakeNumber;
             stakeWei := stakeNumber;
             gs_lastAction := lastActionNumber;
             timeout := timeoutSeconds;
             timeSinceLastAction := timeSince;
             isTimedOut := timedOut;
             canTimeout := pv_canTimeout vars;
             timeoutFunction := pv_timeoutFunction vars;
             phase := pv_phase vars;
             isJ1 := sameAddress signerAddress (j1 r);
             isJ2 := sameAddress signerAddress (j2 r);
             userAddress := signerAddress |}
    | _, _ => LoadAlert ErrorLoadingGameState
    end.

End Library.

(** [callTimeout()] on the stored state ([None] for null); [signer] is
    [None] when [provider.getSigner()] rejects.  When the stored name is
    neither of the two, no transaction is made and reading [tx.hash]
    throws into the catch block. *)
Definition callTimeout (state : option gameState) (signer : option string)
  : timeoutOutcome :=
  match state with
  | None => TimeoutAlert CannotCallTimeout
  | Some gs =>
      if negb (canTimeout gs) then TimeoutAlert CannotCallTimeout
      else
        match signer with
        | None => TimeoutAlert TimeoutCallFailed
        | Some _ =>
            match timeoutFunction gs with
            | Some fn =>
                if String.eqb fn "j1Timeout" then
                  if negb (isJ2 gs) then TimeoutAlert OnlyPlayer2CanCallJ1Timeout
                  else Send_j1Timeout
                else if String.eqb fn "j2Timeout" then
                  if negb (isJ1 gs) then TimeoutAlert OnlyPlayer1CanCallJ2Timeout
                  else Send_j2Timeout
                else TimeoutAlert TimeoutCallFailed
            | None => TimeoutAlert TimeoutCallFailed
            end
        end
  end.

(** The two clicks of a player who claims a timeout: Load Game State,
    then Claim Timeout, on the same contract address, with the same
    wallet and with nothing stored before; a load that fails leaves
    null as stored state. *)
Definition loadThenCallTimeout (isAddress : string -> bool)
    (formatEther : Z -> string) (address : string)
    (reads : option contractReads) (signer : option string) (now : Z)
  : timeoutOutcome :=
  match loadGameState isAddress formatEther address reads signer now with
  | Loaded gs => callTimeout (Some gs) signer
  | LoadAlert _ => callTimeout None signer
  end.

End GameStatus.

(** ** The secret file

    [handleDownloadSecret] writes [JSON.stringify(secretData)] to a file
    and [handleUploadSecret] reads one back with [JSON.parse].  The
    parsed object is represented by its fields, each absent ([None]) or
    of the type the client writes: [move] a Number, the others strings.
    On such objects parsing undoes the serialisation, and a field whose
    value is undefined is not written. *)
Record secretFile : Type := {
  sf_move : option Z;
  sf_moveName : option string;
  sf_salt : option string;
  sf_commitment : option string;
  sf_createdAt : option string;
  sf_contractAddress : option string
}.

(** ** The formats of the exported fields

    What the export record of the spec asks of its fields, as
    predicates on the strings the client writes. *)
Module SecretFormat.

(** [s] is 0x followed by exactly 64 hexadecimal digits: the text of
    32 bytes with the prefix the client keeps. *)
Definition is0xHex64 (s : string) : bool :=
  JSString.startsWith s "0x"
  && (String.length (JSString.slice s 2) =? 64)%nat
  && JSString.allHex (JSString.slice s 2).

Definition isDigit (c : ascii) : bool :=
  let n := nat_of_ascii c in (48 <=? n)%nat && (n <=? 57)%nat.

(** [s] has the shape of [pattern], where a d in the pattern stands
    for any decimal digit and every other character for itself. *)
Fixpoint hasShape (pattern s : string) {struct pattern} : bool :=
  match pattern, s with
  | EmptyString, EmptyString => true
  | String p pattern', String c s' =>
      (if Ascii.eqb p "d" then isDigit c else Ascii.eqb c p)
      && hasShape pattern' s'
  | _, _ => false
  end.

(** The ISO 8601 text [Date.prototype.toISOString] returns for a year
    from 0 to 9999: YYYY-MM-DDTHH:mm:ss.sssZ, 24 characters. *)
Definition isISOString (s : string) : bool :=
  hasShape "dddd-dd-ddTdd:dd:dd.dddZ" s.

End SecretFormat.

(** ** src/components/GameCreation.jsx *)
Module GameCreation.

Definition MOVES : list string :=
  ["Rock"; "Paper"; "Scissors"; "Spock"; "Lizard"]%string.

(** The component's state: [move] is the UI index, 0 to 4. *)
Record state : Type := {
  opponent : string;
  stake : string;
  move : Z;
  salt : string;
  commitment : string
}.

Definition initialState : state :=
  {| opponent := ""; stake := "0.0001"; move := 0; salt := ""; commitment := "" |}.

Inductive alert : Type :=
| SaltGenerated             (* Salt generated! Commitment computed. ... *)
| ErrorGeneratingSalt       (* Error generating salt: ... *)
| GenerateSaltFirst         (* Generate salt first! *)
| GenerateSaltAndSaveFirst  (* Generate salt and save secret first! *)
| EnterValidOpponent        (* Please enter a valid opponent address! *)
| CannotPlayYourself        (* You cannot play against yourself! *)
| ErrorCreatingGame.        (* Error creating game: ... *)

(** What [handleCreateGame] does: an alert, or the deployment it asks
    for, [factory.deploy(commitment, opponent, { value })].  Whether
    the deployment then goes through is the library's and the ledger's
    business. *)
Inductive createOutcome : Type :=
| CreateAlert (a : alert)
| Deploy (_c1Hash _j2 : string) (value : Z).

(** [MOVES[move]] *)
Definition moveNameAt (uiMove : Z) : option string :=
  if uiMove <? 0 then None else nth_error MOVES (Z.to_nat uiMove).

Section Library.

Variable keccak256 : list Z -> string.
Variable isAddress : string -> bool.
(** [ethers.parseEther]; [None] when it throws. *)
Variable parseEther : string -> option Z.

(** [isValidAddress] and [parseEth] of hashHelpers.js. *)
Definition isValidAddress (address : string) : bool := isAddress address.

Definition parseEth (ethAmount : string) : result Z :=
  orThrow (parseEther ethAmount) (Error "Invalid ETH amount").

(** [handleGenerateSalt()], given the bytes [ethers.randomBytes(32)]
    returned: the new state and the alert shown. *)
Definition handleGenerateSalt (st : state) (randomBytes : list Z) : state * alert :=
  let newSalt := HashHelpers.generateSalt randomBytes in
  let contractMove := HashHelpers.uiMoveToContract (move st) in
  match HashHelpers.createCommitment keccak256 contractMove newSalt with
  | Return hash =>
      ({| opponent := opponent st; stake := stake st; move := move st;
          salt := newSalt; commitment := hash |}, SaltGenerated)
  | Throw _ => (st, ErrorGeneratingSalt)
  end.

(** [handleDownloadSecret()]: the object written to the file, or the
    alert; [now] is [new Date().toISOString()]. *)
Definition handleDownloadSecret (st : state) (now : string) : alert + secretFile :=
  if JSString.falsy (salt st) then inl GenerateSaltFirst
  else inr {| sf_move := Some (HashHelpers.uiMoveToContract (move st));
              sf_moveName := moveNameAt (move st);
              sf_salt := Some (salt st);
              sf_commitment := Some (commitment st);
              sf_createdAt := Some now;
              sf_contractAddress := None |}.

(** [handleCreateGame()] up to the deployment; [signer] is the address
    of [provider.getSigner()], [None] when it rejects. *)
Definition handleCreateGame (st : state) (signer : option string) : createOutcome :=
  if JSString.falsy (salt st) || JSString.falsy (commitment st)
  then CreateAlert GenerateSaltAndSaveFirst
  else if JSString.falsy (opponent st) || negb (isValidAddress (opponent st))
  then CreateAlert EnterValidOpponent
  else
    match parseEth (stake st) with
    | Throw _ => CreateAlert ErrorCreatingGame
    | Return stakeAmount =>
        match signer with
        | None => CreateAlert ErrorCreatingGame
        | Some signerAddress =>
            (* Check if opponent is same as creator *)
            if sameAddress (opponent st) signerAddress
            then CreateAlert CannotPlayYourself
            else Deploy (commitment st) (opponent st) stakeAmount
        end
    end.

End Library.

End GameCreation.

(** ** src/components/GameJoin.jsx *)
Module GameJoin.

Record gameInfo : Type := {
  gi_j1 : string;
  gi_j2 : string;
  gi_stake : string;
  gi_c2 : Z;
  hasPlayed : bool;
  gi_lastAction : Z;
  isJ2 : bool
}.

(** The component's state: [move] is the UI index, 0 to 4. *)
Record state : Type := {
  contractAddress : string;
  move : Z;
  info : option gameInfo
}.

Inductive alert : Type :=
| CouldNotLoadGameInfo        (* Could not load game info. ... *)
| EnterValidContractAddress   (* Please enter a valid contract address! *)
| LoadGameInfoFirst           (* Load game info first! *)
| Player2AlreadyPlayed        (* Player 2 has already played! *)
| NotPlayer2                  (* You are not player 2 of this game! *)
| ErrorJoiningGame.           (* Error joining game: ... *)

(** What [handleJoinGame] does: an alert, or the transaction it sends,
    [contract.play(contractMove, { value })]. *)
Inductive joinOutcome : Type :=
| JoinAlert (a : alert)
| Play (_c2 : Z) (value : Z).

Section Library.

Variable isAddress : string -> bool.
Variable formatEther : Z -> string.
Variable parseEther : string -> option Z.

(** [loadGameInfo()]: the [gameInfo] it stores (null is [None]); a
    rejected read also alerts. *)
Definition loadGameInfo (address : string) (reads : option contractReads)
    (signer : option string) : option gameInfo * option alert :=
  if JSString.falsy address || negb (isAddress address) then (None, None)
  else
    match reads, signer with
    | Some r, Some signerAddress =>
        (Some {| gi_j1 := j1 r;
                 gi_j2 := j2 r;
                 gi_stake := formatEther (stake r);
                 gi_c2 := JSNumber.toNumber (c2 r);
                 (* Check if j2 has already played *)
                 hasPlayed := negb (JSNumber.toNumber (c2 r) =? 0);
                 gi_lastAction := JSNumber.toNumber (lastAction r);
                 isJ2 := sameAddress signerAddress (j2 r) |}, None)
    | _, _ => (None, Some CouldNotLoadGameInfo)
    end.

(** [handleJoinGame()] up to the transaction. *)
Definition handleJoinGame (st : state) (signer : option string) : joinOutcome :=
  if JSString.falsy (contractAddress st) || negb (isAddress (contractAddress st))
  then JoinAlert EnterValidContractAddress
  else
    match info st with
    | None => JoinAlert LoadGameInfoFirst
    | Some gameInfo =>
        if hasPlayed gameInfo then JoinAlert Player2AlreadyPlayed
        else if negb (isJ2 gameInfo) then JoinAlert NotPlayer2
        else
          match signer with
          | None => JoinAlert ErrorJoiningGame
          | Some _ =>
              (* Convert UI move (0-4) to contract move (1-5) *)
              let contractMove := HashHelpers.uiMoveToContract (move st) in
              match parseEther (gi_stake gameInfo) with
              | None => JoinAlert ErrorJoiningGame
              | Some stakeAmount => Play contractMove stakeAmount
              end
          end
    end.

(** The two clicks of a player who joins: Load Game Info, then Join
    Game, on the same contract and with the same wallet. *)
Definition loadThenJoin (address : string) (uiMove : Z)
    (reads : option contractReads) (signer : option string) : joinOutcome :=
  handleJoinGame
    {| contractAddress := address; move := uiMove;
       info := fst (loadGameInfo address reads signer) |}
    signer.

(** The contract's [play], whose code is not under src/: any function
    of the contract, the sender and the two arguments. *)
Variable play : contractReads -> string -> Z -> Z -> contractReads.


End Library.

End GameJoin.

(** ** src/components/GameReveal.jsx *)
Module GameReveal.

Definition MOVES : list string :=
  ["Rock"; "Paper"; "Scissors"; "Spock"; "Lizard"]%string.

(** The component's state: [move] is the contract's code, 1 to 5. *)
Record state : Type := {
  contractAddress : string;
  move : Z;
  salt : string
}.

Definition initialState : state :=
  {| contractAddress := ""; move := 1; salt := "" |}.

Inductive alert : Type :=
| SecretLoaded                (* Secret loaded! Move: ... *)
| InvalidSecretFile           (* Invalid secret file: ... *)
| EnterValidContractAddress   (* Please enter a valid contract address! *)
| LoadSecretFirst             (* Please load your secret first! *)
| InvalidMoveMustBe1to5       (* Invalid move! Must be 1-5. *)
| InvalidSaltFormat           (* Invalid salt format! *)
| InvalidMoveValue            (* Invalid move value: ... *)
| InvalidSaltValue            (* Invalid salt value *)
| RevealFailed.               (* Reveal failed: ... *)

(** The file the user picked. *)
Inductive upload : Type :=
| NoFile                      (* e.target.files[0] is undefined *)
| NotJSON                     (* JSON.parse throws *)
| Parsed (secret : secretFile).

(** What [handleReveal] does: an alert, or the transaction it sends,
    [contract.solve(Number(move), saltBigInt)]. *)
Inductive revealOutcome : Type :=
| RevealAlert (a : alert)
| Solve (_c1 : Z) (_salt : Z).

(** [!secret.move] and [!secret.salt]: an absent field, the Number 0 and
    the empty string are falsy. *)
Definition moveFalsy (m : option Z) : bool :=
  match m with Some v => JSNumber.falsy v | None => true end.

Definition stringFalsy (s : option string) : bool :=
  match s with Some v => JSString.falsy v | None => true end.

(** [handleUploadSecret(e)]: the new state and the alert shown, if any. *)
Definition handleUploadSecret (st : state) (file : upload) : state * option alert :=
  match file with
  | NoFile => (st, None)
  | NotJSON => (st, Some InvalidSecretFile)
  | Parsed secret =>
      if moveFalsy (sf_move secret) || stringFalsy (sf_salt secret)
      then (st, Some InvalidSecretFile)
      else
        match sf_move secret, sf_salt secret with
        | Some m, Some s =>
            ({| contractAddress :=
                  (* Try to auto-fill contract address if available *)
                  if stringFalsy (sf_contractAddress secret) then contractAddress st
                  else match sf_contractAddress secret with
                       | Some a => a
                       | None => contractAddress st
                       end;
                move := m;
                salt := s |}, Some SecretLoaded)
        | _, _ => (st, Some InvalidSecretFile)
        end
  end.

(** The move name in the alert of a loaded secret:
    [secret.moveName || MOVES[secret.move - 1]]. *)
Definition shownMoveName (secret : secretFile) : option string :=
  if stringFalsy (sf_moveName secret) then
    match sf_move secret with
    | Some m =>
        let i := JSNumber.sub m 1 in
        if i <? 0 then None else nth_error MOVES (Z.to_nat i)
    | None => None
    end
  else sf_moveName secret.

Section Library.

Variable isAddress : string -> bool.

(** The salt without its prefix:
    [salt.startsWith("0x") ? salt.slice(2) : salt]. *)
Definition saltClean (s : string) : string :=
  if JSString.startsWith s "0x" then JSString.slice s 2 else s.

(** [handleReveal()] up to the transaction; [signer] is [None] when
    [provider.getSigner()] rejects. *)
Definition handleReveal (st : state) (signer : option string) : revealOutcome :=
  if JSString.falsy (contractAddress st) || negb (isAddress (contractAddress st))
  then RevealAlert EnterValidContractAddress
  else if JSString.falsy (salt st) then RevealAlert LoadSecretFirst
  else if (move st <? 1) || (5 <? move st) then RevealAlert InvalidMoveMustBe1to5
  else
    match signer with
    | None => RevealAlert RevealFailed
    | Some _ =>
        (* Convert salt to uint256 *)
        match JSString.BigInt_0x (saltClean (salt st)) with
        | None => RevealAlert InvalidSaltFormat
        | Some saltBigInt =>
            (* Verify values are correct *)
            if JSNumber.falsy (move st) || (move st <? 1) || (5 <? move st)
            then RevealAlert InvalidMoveValue
            else if JSNumber.falsy saltBigInt || (saltBigInt =? 0)
            then RevealAlert InvalidSaltValue
            else Solve (move st) saltBigInt
        end
    end.

End Library.

End GameReveal.

(** ** Concrete games

    The inputs on which the handlers are run in Part II: two players, a
    deployed game, and the contract at three moments of a game with a
    stake of 0.0001 ether, created at second 1000 with a timeout of 300
    seconds. *)
Module Scenario.

Definition alice : string := "0x00000000000000000000000000000000000000a1".
Definition bob : string := "0x00000000000000000000000000000000000000b2".
Definition game : string := "0x000000000000000000000000000000000000009a".
Definition commitmentOfAlice : string :=
  "0x1111111111111111111111111111111111111111111111111111111111111111".

(** Bob has not joined. *)
Definition created : contractReads :=
  {| j1 := alice; j2 := bob; c1Hash := commitmentOfAlice; c2 := 0;
     stake := 100000000000000; lastAction := 1000; TIMEOUT := 300 |}.

(** Bob has played Scissors at second 1100. *)
Definition joined : contractReads :=
  {| j1 := alice; j2 := bob; c1Hash := commitmentOfAlice; c2 := 3;
     stake := 100000000000000; lastAction := 1100; TIMEOUT := 300 |}.

(** The creation form once Alice has generated her salt, with Bob as
    opponent; [zeroStake] is the same form with 0 typed as stake. *)
Definition aliceSalt : string :=
  "0x00000000000000000000000000000000000000000000000000000000000000ff".

Definition form : GameCreation.state :=
  {| GameCreation.opponent := bob; GameCreation.stake := "0.0001";
     GameCreation.move := 0; GameCreation.salt := aliceSalt;
     GameCreation.commitment := commitmentOfAlice |}.


(** The same form holding another commitment. *)
Definition otherCommitment : GameCreation.state :=
  {| GameCreation.opponent := bob; GameCreation.stake := "0.0001";
     GameCreation.move := 0; GameCreation.salt := aliceSalt;
     GameCreation.commitment :=
       "0x2222222222222222222222222222222222222222222222222222222222222222" |}.

(** The reveal form with the address of the game and an all-zero salt. *)
Definition zeroSalt : GameReveal.state :=
  {| GameReveal.contractAddress := game; GameReveal.move := 1;
     GameReveal.salt :=
       "0x0000000000000000000000000000000000000000000000000000000000000000" |}.

(** The stake has been paid out. *)
Definition settled : contractReads :=
  {| j1 := alice; j2 := bob; c1Hash := commitmentOfAlice; c2 := 3;
     stake := 0; lastAction := 1100; TIMEOUT := 300 |}.

End Scenario.

(** ** localStorage

    An item is absent, holds what the client wrote under its key (an
    object or an array of objects, represented by their fields), or
    holds text on which the handler that reads it throws.  Text that
    parses to an object of another shape than the client writes is not
    represented. *)
Module LocalStorage.

Inductive item (A : Type) : Type :=
| Missing                      (* getItem returns null *)
| Corrupt                      (* JSON.parse throws; for an array, also a
                                  value without push *)
| Holds (value : A).
Arguments Missing {A}.
Arguments Corrupt {A}.
Arguments Holds {A} value.

(** [gameData], written under rps_secret by [handleGenerateSalt]. *)
Record gameData : Type := {
  gd_move : Z;
  gd_moveName : option string;
  gd_salt : string;
  gd_commitment : string;
  gd_timestamp : Z
}.

(** [gameInfo], pushed on the array under rps_games by
    [handleCreateGame]. *)
Record savedGame : Type := {
  sg_contractAddress : string;
  sg_j1 : string;
  sg_j2 : string;
  sg_stake : string;
  sg_move : Z;
  sg_moveName : option string;
  sg_salt : string;
  sg_commitment : string;
  sg_createdAt : string
}.

(** The object pushed on the array under rps_reveals by
    [handleReveal]. *)
Record savedReveal : Type := {
  sr_contractAddress : string;
  sr_move : Z;
  sr_moveName : option string;
  sr_revealedAt : string;
  sr_txHash : string
}.

Record storage : Type := {
  rps_secret : item gameData;
  rps_games : item (list savedGame);
  rps_current_game : option string;
  rps_reveals : item (list savedReveal)
}.

Definition empty : storage :=
  {| rps_secret := Missing; rps_games := Missing;
     rps_current_game := None; rps_reveals := Missing |}.

(** [JSON.parse(localStorage.getItem(key) || "[]")]: the array, empty
    when the item is absent; [None] when the parse throws. *)
Definition readArray {A : Type} (i : item (list A)) : option (list A) :=
  match i with
  | Missing => Some []
  | Corrupt => None
  | Holds l => Some l
  end.

End LocalStorage.

(** ** GameCreation.jsx, the handlers to their end *)
Module GameCreationFlow.

(** How a click on Deploy Game Contract ends. *)
Inductive createResult : Type :=
| NotDeployed (a : GameCreation.alert)
| DeployedNotRecorded (contractAddress : string)
    (* deployed, then the array under rps_games could not be read: the
       catch block alerts Error creating game *)
| Created (contractAddress : string).
    (* alert Game Created!, and onGameCreated(contractAddress) *)

Section Library.

Variable keccak256 : list Z -> string.
Variable isAddress : string -> bool.
Variable parseEther : string -> option Z.
Variable formatEther : Z -> string.

(** [handleGenerateSalt()] with the backup it writes under rps_secret;
    [timestamp] is [Date.now()]. *)
Definition handleGenerateSalt (st : GameCreation.state) (randomBytes : list Z)
    (timestamp : Z) (store : LocalStorage.storage)
  : GameCreation.state * LocalStorage.storage * GameCreation.alert :=
  let newSalt := HashHelpers.generateSalt randomBytes in
  let contractMove := HashHelpers.uiMoveToContract (GameCreation.move st) in
  match HashHelpers.createCommitment keccak256 contractMove newSalt with
  | Return hash =>
      (* Store in localStorage as backup *)
      let gameData :=
        {| LocalStorage.gd_move := contractMove;
           LocalStorage.gd_moveName := GameCreation.moveNameAt (GameCreation.move st);
           LocalStorage.gd_salt := newSalt;
           LocalStorage.gd_commitment := hash;
           LocalStorage.gd_timestamp := timestamp |} in
      ({| GameCreation.opponent := GameCreation.opponent st;
          GameCreation.stake := GameCreation.stake st;
          GameCreation.move := GameCreation.move st;
          GameCreation.salt := newSalt;
          GameCreation.commitment := hash |},
       {| LocalStorage.rps_secret := LocalStorage.Holds gameData;
          LocalStorage.rps_games := LocalStorage.rps_games store;
          LocalStorage.rps_current_game := LocalStorage.rps_current_game store;
          LocalStorage.rps_reveals := LocalStorage.rps_reveals store |},
       GameCreation.SaltGenerated)
  | Throw _ => (st, store, GameCreation.ErrorGeneratingSalt)
  end.

(** [handleCreateGame()] to its end.  [deployed] is the address
    [contract.getAddress()] gives once [factory.deploy] and
    [waitForDeployment] are through, [None] when one of them rejects;
    [now] is [new Date().toISOString()]. *)
Definition handleCreateGame (st : GameCreation.state) (signer : option string)
    (deployed : option string) (now : string) (store : LocalStorage.storage)
  : GameCreation.state * LocalStorage.storage * createResult :=
  match GameCreation.handleCreateGame isAddress parseEther st signer with
  | GameCreation.CreateAlert a => (st, store, NotDeployed a)
  | GameCreation.Deploy _ _ stakeAmount =>
      match deployed, signer with
      | Some contractAddress, Some signerAddress =>
          (* Store game info *)
          let gameInfo :=
            {| LocalStorage.sg_contractAddress := contractAddress;
               LocalStorage.sg_j1 := signerAddress;
               LocalStorage.sg_j2 := GameCreation.opponent st;
               LocalStorage.sg_stake := formatEther stakeAmount;
               LocalStorage.sg_move := HashHelpers.uiMoveToContract (GameCreation.move st);
               LocalStorage.sg_moveName := GameCreation.moveNameAt (GameCreation.move st);
               LocalStorage.sg_salt := GameCreation.salt st;
               LocalStorage.sg_commitment := GameCreation.commitment st;
               LocalStorage.sg_createdAt := now |} in
          (* Save to localStorage *)
          match LocalStorage.readArray (LocalStorage.rps_games store) with
          | None => (st, store, DeployedNotRecorded contractAddress)
          | Some games =>
              (* Reset form *)
              ({| GameCreation.opponent := EmptyString;
                  GameCreation.stake := GameCreation.stake st;
                  GameCreation.move := GameCreation.move st;
                  GameCreation.salt := EmptyString;
                  GameCreation.commitment := EmptyString |},
               {| LocalStorage.rps_secret := LocalStorage.rps_secret store;
                  LocalStorage.rps_games := LocalStorage.Holds (games ++ [gameInfo]);
                  LocalStorage.rps_current_game := Some contractAddress;
                  LocalStorage.rps_reveals := LocalStorage.rps_reveals store |},
               Created contractAddress)
          end
      | _, _ => (st, store, NotDeployed GameCreation.ErrorCreatingGame)
      end
  end.

End Library.

End GameCreationFlow.

(** ** GameReveal.jsx, the handlers to their end *)
Module GameRevealFlow.

Inductive storageAlert : Type :=
| NoSecretFound               (* No secret found in localStorage. *)
| SecretLoadedFromStorage     (* Secret loaded from localStorage! *)
| ErrorLoadingSecret.         (* Error loading secret: ... *)

(** [handleLoadFromStorage()] on the item under rps_secret: absent,
    text on which [JSON.parse] throws, or the [gameData] that
    [handleGenerateSalt], the only writer of the key, stored. *)
Definition handleLoadFromStorage (st : GameReveal.state)
    (savedSecret : LocalStorage.item LocalStorage.gameData)
  : GameReveal.state * storageAlert :=
  match savedSecret with
  | LocalStorage.Missing => (st, NoSecretFound)
  | LocalStorage.Corrupt => (st, ErrorLoadingSecret)
  | LocalStorage.Holds secret =>
      ({| GameReveal.contractAddress := GameReveal.contractAddress st;
          GameReveal.move := LocalStorage.gd_move secret;
          GameReveal.salt := LocalStorage.gd_salt secret |},
       SecretLoadedFromStorage)
  end.

(** [s.includes(t)] *)
Fixpoint includes (s t : string) : bool :=
  JSString.startsWith s t
  || match s with
     | EmptyString => false
     | String _ rest => includes rest t
     end.

(** The alert of the catch block, chosen by the message of the error. *)
Inductive failure : Type :=
| CommitmentDoesNotMatch      (* Invalid move or salt! The commitment doesn't match. *)
| Player2HasNotPlayed         (* Player 2 has not played yet! *)
| OtherFailure.               (* Reveal failed: ... *)

Definition failureOf (message : string) : failure :=
  if includes message "invalid move" then CommitmentDoesNotMatch
  else if includes message "J2 must have played" then Player2HasNotPlayed
  else OtherFailure.

(** How a click on Reveal Move ends. *)
Inductive revealResult : Type :=
| NotSent (a : GameReveal.alert)
| TransactionFailed (f : failure)
| RevealedNotRecorded (txHash : string)
    (* confirmed, then the array under rps_reveals could not be read:
       the catch block alerts Reveal failed *)
| Revealed (txHash : string).

(** [MOVES[move - 1]] *)
Definition moveNameOf (contractMove : Z) : option string :=
  let i := JSNumber.sub contractMove 1 in
  if i <? 0 then None else nth_error GameReveal.MOVES (Z.to_nat i).

Section Library.

Variable isAddress : string -> bool.

(** [handleReveal()] to its end.  [tx] is the hash of the transaction
    once [contract.solve] and [tx.wait()] are through, or the message
    of the error one of them rejects with; [now] is
    [new Date().toISOString()]. *)
Definition handleReveal (st : GameReveal.state) (signer : option string)
    (tx : string + string) (now : string) (store : LocalStorage.storage)
  : GameReveal.state * LocalStorage.storage * revealResult :=
  match GameReveal.handleReveal isAddress st signer with
  | GameReveal.RevealAlert a => (st, store, NotSent a)
  | GameReveal.Solve _ _ =>
      match tx with
      | inr message => (st, store, TransactionFailed (failureOf message))
      | inl txHash =>
          (* Save reveal to localStorage *)
          match LocalStorage.readArray (LocalStorage.rps_reveals store) with
          | None => (st, store, RevealedNotRecorded txHash)
          | Some reveals =>
              let entry :=
                {| LocalStorage.sr_contractAddress := GameReveal.contractAddress st;
                   LocalStorage.sr_move := GameReveal.move st;
                   LocalStorage.sr_moveName := moveNameOf (GameReveal.move st);
                   LocalStorage.sr_revealedAt := now;
                   LocalStorage.sr_txHash := txHash |} in
              (* Clear form *)
              ({| GameReveal.contractAddress := GameReveal.contractAddress st;
                  GameReveal.move := GameReveal.move st;
                  GameReveal.salt := EmptyString |},
               {| LocalStorage.rps_secret := LocalStorage.rps_secret store;
                  LocalStorage.rps_games := LocalStorage.rps_games store;
                  LocalStorage.rps_current_game := LocalStorage.rps_current_game store;
                  LocalStorage.rps_reveals := LocalStorage.Holds (reveals ++ [entry]) |},
               Revealed txHash)
          end
      end
  end.

End Library.

End GameRevealFlow.

(** ** More concrete inputs

    A creation form before Generate Salt, 32 bytes for the random
    source, and a stand-in for keccak256 on which the handlers can be
    run: the hexadecimal text of the bytes it is given. *)
Module ScenarioFlow.

Definition blankForm : GameCreation.state :=
  {| GameCreation.opponent := Scenario.bob; GameCreation.stake := "0.0001";
     GameCreation.move := 2; GameCreation.salt := EmptyString;
     GameCreation.commitment := EmptyString |}.

Definition randomBytes : list Z := Ethers.bigEndian 32 255.

Definition textOfBytes : list Z -> string := Ethers.hexlify.

(** A stand-in with the format of a digest, 0x and 64 digits: the text
    of the low 32 bytes of what it is given. *)
Definition low32Bytes (bytes : list Z) : string :=
  Ethers.hexlify (Ethers.bigEndian 32 (Ethers.fromBigEndian bytes)).

(** The creation form of Alice with her own address, typed without
    0x, as opponent. *)
Definition againstHerself : GameCreation.state :=
  {| GameCreation.opponent := "00000000000000000000000000000000000000a1";
     GameCreation.stake := "0.0001";
     GameCreation.move := 0; GameCreation.salt := Scenario.aliceSalt;
     GameCreation.commitment := Scenario.commitmentOfAlice |}.

(** The reveal form of Alice: Scissors, and the salt of [randomBytes]. *)
Definition revealForm : GameReveal.state :=
  {| GameReveal.contractAddress := Scenario.game; GameReveal.move := 3;
     GameReveal.salt := HashHelpers.generateSalt randomBytes |}.

End ScenarioFlow.

(** ** Tactics *)

(** Decides whether a pair of moves is in an explicit list of pairs,
    both ways, once the moves are known. *)
Ltac solve_move_membership :=
  simpl; split; intros H;
  [ first [ discriminate H | tauto ]
  | repeat (destruct H as [H | H]; [discriminate H || reflexivity |]);
    try contradiction ].

(* ===================================================================== *)
(** * Part II: lemmas and theorems *)
(* ===================================================================== *)

(** ** Numbers *)

Lemma dropped_bits_small (a : Z) : 0 <= a < 2 ^ 53 -> JSNumber.dropped_bits a = 0.
Proof.
  intros [Ha Hlt]. unfold JSNumber.dropped_bits.
  destruct (Z.eq_dec a 0) as [-> | Hne]; [reflexivity |].
  assert (Z.log2 a < 53) by (apply Z.log2_lt_pow2; lia).
  lia.
Qed.

Lemma toNumber_exact (z : Z) : - 2 ^ 53 <= z <= 2 ^ 53 -> JSNumber.toNumber z = z.
Proof.
  intros Hz. unfold JSNumber.toNumber.
  destruct (Z.eq_dec (Z.abs z) (2 ^ 53)) as [Heq | Hne].
  - rewrite Heq.
    replace (JSNumber.round_to_multiple (2 ^ 53) (JSNumber.dropped_bits (2 ^ 53)))
      with (2 ^ 53) by (vm_compute; reflexivity).
    rewrite <- Heq, Z.mul_comm. apply Z.abs_sgn.
  - rewrite dropped_bits_small by lia.
    unfold JSNumber.round_to_multiple. simpl (0 =? 0).
    cbv iota. rewrite Z.mul_comm. apply Z.abs_sgn.
Qed.

Lemma isSafeInteger_bounds (z : Z) :
  JSNumber.isSafeInteger z = true -> - (2 ^ 53 - 1) <= z <= 2 ^ 53 - 1.
Proof.
  unfold JSNumber.isSafeInteger, JSNumber.MAX_SAFE_INTEGER.
  intros H. apply andb_true_iff in H. destruct H as [H1 H2].
  apply Z.leb_le in H1. apply Z.leb_le in H2. lia.
Qed.

Lemma add_exact (x y : Z) : - 2 ^ 53 <= x + y <= 2 ^ 53 -> JSNumber.add x y = x + y.
Proof. intros H. unfold JSNumber.add. now apply toNumber_exact. Qed.

Lemma sub_exact (x y : Z) : - 2 ^ 53 <= x - y <= 2 ^ 53 -> JSNumber.sub x y = x - y.
Proof. intros H. unfold JSNumber.sub. now apply toNumber_exact. Qed.

(** The integer model of [+] and [-] agrees with the binary64
    operations of the kernel where the round trips of the move
    conversions break. *)
Example add_matches_binary64 :
  PrimFloat.add (JSNumber.binary64 (2 ^ 53)) (JSNumber.binary64 1)
  = JSNumber.binary64 (JSNumber.add (2 ^ 53) 1)
  /\ PrimFloat.sub (JSNumber.binary64 (2 ^ 53)) (JSNumber.binary64 1)
     = JSNumber.binary64 (JSNumber.sub (2 ^ 53) 1)
  /\ PrimFloat.add (JSNumber.binary64 (2 ^ 53 + 2)) (JSNumber.binary64 1)
     = JSNumber.binary64 (JSNumber.add (2 ^ 53 + 2) 1)
  /\ PrimFloat.add (JSNumber.binary64 4) (JSNumber.binary64 1)
     = JSNumber.binary64 (JSNumber.add 4 1).
Proof. repeat split; vm_compute; reflexivity. Qed.

(** On each of the 495 sample integers the rounding of the model is the
    rounding of the kernel's binary64. *)
Example toNumber_rounds_as_binary64 :
  forallb JSNumber.roundsAsBinary64 JSNumber.roundingSamples = true.
Proof. vm_compute. reflexivity. Qed.

(** ** The move conversions of hashHelpers.js *)

(** C10, as stated, fails: 2^53 is an integer a Number holds, and
    adding 1 to it gives 2^53 again, so converting it to a contract move
    and back yields 2^53 - 1; in the other order the round trip breaks
    at -2^53.  The kernel's binary64 arithmetic shows the same. *)
Lemma move_round_trip_breaks_at_2_53 :
  JSNumber.representable 9007199254740992 = true
  /\ HashHelpers.uiMoveToContract 9007199254740992 = 9007199254740992
  /\ HashHelpers.contractMoveToUI (HashHelpers.uiMoveToContract 9007199254740992)
     = 9007199254740991
  /\ HashHelpers.uiMoveToContract (HashHelpers.contractMoveToUI (-9007199254740992))
     = -9007199254740991
  /\ PrimFloat.sub (PrimFloat.add 9007199254740992%float 1%float) 1%float
     = 9007199254740991%float.
Proof. repeat split; vm_compute; reflexivity. Qed.

(** C10, amended: on the safe integers (magnitude at most 2^53 - 1) the
    two conversions are inverse to each other in both orders, and they
    carry the UI indices 0..4 onto the contract codes 1..5 and back. *)
Theorem move_conversions_inverse_on_safe_integers (x : Z) :
  JSNumber.isSafeInteger x = true ->
  HashHelpers.contractMoveToUI (HashHelpers.uiMoveToContract x) = x
  /\ HashHelpers.uiMoveToContract (HashHelpers.contractMoveToUI x) = x
  /\ (0 <= x <= 4 -> 1 <= HashHelpers.uiMoveToContract x <= 5)
  /\ (1 <= x <= 5 -> 0 <= HashHelpers.contractMoveToUI x <= 4).
Proof.
  intros Hsafe. apply isSafeInteger_bounds in Hsafe.
  unfold HashHelpers.contractMoveToUI, HashHelpers.uiMoveToContract.
  assert (Hadd : JSNumber.add x 1 = x + 1) by (apply add_exact; lia).
  assert (Hsub : JSNumber.sub x 1 = x - 1) by (apply sub_exact; lia).
  rewrite Hadd, Hsub.
  rewrite sub_exact by lia. rewrite add_exact by lia.
  repeat split; lia.
Qed.

Lemma move_conversions_inverse_witness :
  JSNumber.isSafeInteger 4 = true
  /\ HashHelpers.contractMoveToUI (HashHelpers.uiMoveToContract 4) = 4
  /\ HashHelpers.uiMoveToContract (HashHelpers.contractMoveToUI 4) = 4
  /\ (0 <= 4 <= 4 -> 1 <= HashHelpers.uiMoveToContract 4 <= 5)
  /\ (1 <= 4 <= 5 -> 0 <= HashHelpers.contractMoveToUI 4 <= 4).
Proof.
  split; [reflexivity | apply (move_conversions_inverse_on_safe_integers 4); reflexivity].
Defined.

(** ** Hexadecimal strings and byte strings *)

Lemma hexDigitValue_hexChar (d : Z) :
  0 <= d < 16 -> JSString.hexDigitValue (Ethers.hexChar d) = Some d.
Proof.
  intros Hd.
  assert (Hcases : d = 0 \/ d = 1 \/ d = 2 \/ d = 3 \/ d = 4 \/ d = 5 \/ d = 6
                   \/ d = 7 \/ d = 8 \/ d = 9 \/ d = 10 \/ d = 11 \/ d = 12
                   \/ d = 13 \/ d = 14 \/ d = 15) by lia.
  repeat (destruct Hcases as [-> | Hcases]; [reflexivity |]).
  subst d. reflexivity.
Qed.

Lemma isHexDigit_not_space (c : ascii) :
  JSString.isHexDigit c = true -> JSString.isWhiteSpace c = false.
Proof.
  unfold JSString.isHexDigit, JSString.hexDigitValue, JSString.isWhiteSpace.
  set (n := nat_of_ascii c). intros H.
  assert (Hn : (48 <= n <= 102)%nat).
  { destruct ((48 <=? Z.of_nat n) && (Z.of_nat n <=? 57)) eqn:E1;
      [apply andb_true_iff in E1; lia |].
    destruct ((97 <=? Z.of_nat n) && (Z.of_nat n <=? 102)) eqn:E2;
      [apply andb_true_iff in E2; lia |].
    destruct ((65 <=? Z.of_nat n) && (Z.of_nat n <=? 70)) eqn:E3;
      [apply andb_true_iff in E3; lia | discriminate]. }
  destruct (n <=? 13)%nat eqn:E4; [apply Nat.leb_le in E4; lia |].
  destruct (n =? 32)%nat eqn:E5; [apply Nat.eqb_eq in E5; lia |].
  destruct (n =? 160)%nat eqn:E6; [apply Nat.eqb_eq in E6; lia |].
  now rewrite andb_false_r.
Qed.

Lemma hexDigitValue_range (c : ascii) (d : Z) :
  JSString.hexDigitValue c = Some d -> 0 <= d < 16.
Proof.
  unfold JSString.hexDigitValue.
  set (n := Z.of_nat (nat_of_ascii c)).
  destruct ((48 <=? n) && (n <=? 57)) eqn:E1.
  - intros [= <-]. apply andb_true_iff in E1. lia.
  - destruct ((97 <=? n) && (n <=? 102)) eqn:E2.
    + intros [= <-]. apply andb_true_iff in E2. lia.
    + destruct ((65 <=? n) && (n <=? 70)) eqn:E3; [| discriminate].
      intros [= <-]. apply andb_true_iff in E3. lia.
Qed.

(** White space is only trimmed from a string that has some: a string
    of hexadecimal digits is left as it is. *)
Lemma trimEnd_allHex (s : string) : JSString.allHex s = true -> JSString.trimEnd s = s.
Proof.
  induction s as [| c s IH]; [reflexivity |].
  simpl. intros H. apply andb_true_iff in H. destruct H as [Hc Hs].
  rewrite (IH Hs). destruct s; [| reflexivity].
  now rewrite (isHexDigit_not_space c Hc).
Qed.

(** A string of hexadecimal digits parses, to a value with as many
    digits as the string has. *)
Lemma parseHex_allHex (s : string) : forall acc,
  JSString.allHex s = true ->
  exists v, JSString.parseHex acc s = Some v
            /\ 16 ^ Z.of_nat (String.length s) * acc <= v
               < 16 ^ Z.of_nat (String.length s) * (acc + 1).
Proof.
  induction s as [| c s IH]; intros acc H.
  - exists acc. split; [reflexivity |].
    change (Z.of_nat (String.length EmptyString)) with 0. rewrite Z.pow_0_r. lia.
  - simpl in H. apply andb_true_iff in H. destruct H as [Hc Hs].
    unfold JSString.isHexDigit in Hc.
    destruct (JSString.hexDigitValue c) as [d |] eqn:Ed; [| discriminate].
    apply hexDigitValue_range in Ed as Hd.
    destruct (IH (16 * acc + d) Hs) as [v [Hv Hb]].
    exists v. split; [simpl; now rewrite Ed |].
    change (String.length (String c s)) with (S (String.length s)).
    rewrite Nat2Z.inj_succ, Z.pow_succ_r by lia.
    assert (0 < 16 ^ Z.of_nat (String.length s)) by (apply Z.pow_pos_nonneg; lia).
    nia.
Qed.

Lemma parseHex_leading_zeros (k : nat) (s : string) :
  JSString.parseHex 0 (JSString.repeat "0" k ++ s) = JSString.parseHex 0 s.
Proof. induction k as [| k IH]; [reflexivity | simpl; exact IH]. Qed.

Lemma allHex_app (s t : string) :
  JSString.allHex (s ++ t) = JSString.allHex s && JSString.allHex t.
Proof.
  induction s as [| c s IH]; [reflexivity |].
  simpl. now rewrite IH, andb_assoc.
Qed.

Lemma allHex_zeros (k : nat) : JSString.allHex (JSString.repeat "0" k) = true.
Proof. induction k as [| k IH]; [reflexivity | exact IH]. Qed.

Lemma length_repeat (c : ascii) (k : nat) : String.length (JSString.repeat c k) = k.
Proof. induction k as [| k IH]; [reflexivity | simpl; now rewrite IH]. Qed.

Lemma length_string_app (s t : string) :
  String.length (s ++ t) = (String.length s + String.length t)%nat.
Proof. induction s as [| c s IH]; [reflexivity | simpl; now rewrite IH]. Qed.

Lemma length_hexDigits (bytes : list Z) :
  String.length (Ethers.hexDigits bytes) = (2 * List.length bytes)%nat.
Proof. induction bytes as [| b r IH]; [reflexivity | simpl; rewrite IH; lia]. Qed.

Lemma isByte_range (b : Z) : Ethers.isByte b = true -> 0 <= b < 256.
Proof. unfold Ethers.isByte. intros H. apply andb_true_iff in H. lia. Qed.

Lemma allHex_hexDigits (bytes : list Z) :
  forallb Ethers.isByte bytes = true -> JSString.allHex (Ethers.hexDigits bytes) = true.
Proof.
  induction bytes as [| b r IH]; [reflexivity |].
  simpl. intros H. apply andb_true_iff in H. destruct H as [Hb Hr].
  apply isByte_range in Hb.
  unfold JSString.isHexDigit.
  rewrite !hexDigitValue_hexChar, (IH Hr); [reflexivity | |].
  - apply Z.mod_pos_bound. lia.
  - split; [apply Z.div_pos; lia | apply Z.div_lt_upper_bound; lia].
Qed.

(** Reading back what [hexlify] wrote gives the integer the bytes hold. *)
Lemma parseHex_hexDigits (bytes : list Z) : forall acc,
  forallb Ethers.isByte bytes = true ->
  JSString.parseHex acc (Ethers.hexDigits bytes)
  = Some (fold_left (fun a b => 256 * a + b) bytes acc).
Proof.
  induction bytes as [| b r IH]; intros acc H; [reflexivity |].
  simpl in H. apply andb_true_iff in H. destruct H as [Hb Hr].
  apply isByte_range in Hb.
  cbn [JSString.parseHex Ethers.hexDigits fold_left].
  rewrite !hexDigitValue_hexChar.
  - rewrite (IH _ Hr). do 2 f_equal.
    pose proof (Z.div_mod b 16). lia.
  - apply Z.mod_pos_bound. lia.
  - split; [apply Z.div_pos; lia | apply Z.div_lt_upper_bound; lia].
Qed.

Lemma parseHex_hexDigits_value (bytes : list Z) :
  forallb Ethers.isByte bytes = true ->
  JSString.parseHex 0 (Ethers.hexDigits bytes) = Some (Ethers.fromBigEndian bytes).
Proof. intros H. unfold Ethers.fromBigEndian. now apply parseHex_hexDigits. Qed.

Lemma length_bigEndian (n : nat) : forall z, List.length (Ethers.bigEndian n z) = n.
Proof.
  induction n as [| n IH]; intros z; [reflexivity |].
  simpl. rewrite length_app, IH. simpl. lia.
Qed.

Lemma bigEndian_bytes (n : nat) : forall z,
  forallb Ethers.isByte (Ethers.bigEndian n z) = true.
Proof.
  induction n as [| n IH]; intros z; [reflexivity |].
  simpl. rewrite forallb_app, IH. simpl.
  unfold Ethers.isByte.
  pose proof (Z.mod_pos_bound z 256).
  destruct (0 <=? z mod 256) eqn:E1; [| apply Z.leb_gt in E1; lia].
  destruct (z mod 256 <? 256) eqn:E2; [reflexivity | apply Z.ltb_ge in E2; lia].
Qed.

Lemma fromBigEndian_snoc (l : list Z) (b : Z) :
  Ethers.fromBigEndian (l ++ [b]) = 256 * Ethers.fromBigEndian l + b.
Proof. unfold Ethers.fromBigEndian. now rewrite fold_left_app. Qed.

(** The [n] bytes of [z] hold [z] modulo [256^n]. *)
Lemma fromBigEndian_bigEndian (n : nat) : forall z,
  Ethers.fromBigEndian (Ethers.bigEndian n z) = z mod 256 ^ Z.of_nat n.
Proof.
  induction n as [| n IH]; intros z.
  - simpl. now rewrite Z.mod_1_r.
  - simpl Ethers.bigEndian. rewrite fromBigEndian_snoc, IH.
    rewrite Nat2Z.inj_succ, Z.pow_succ_r by lia.
    assert (0 < 256 ^ Z.of_nat n) by (apply Z.pow_pos_nonneg; lia).
    rewrite (Z.rem_mul_r z 256 (256 ^ Z.of_nat n)) by lia.
    lia.
Qed.

Lemma bigEndian_32_value (s : Z) :
  0 <= s < 2 ^ 256 -> Ethers.fromBigEndian (Ethers.bigEndian 32 s) = s.
Proof.
  intros Hs. rewrite fromBigEndian_bigEndian.
  change (256 ^ Z.of_nat 32) with (2 ^ 256). now apply Z.mod_small.
Qed.

(** ** createCommitment *)

Lemma slice_prefixed (s : string) : JSString.slice (String "0" (String "x" s)) 2 = s.
Proof. reflexivity. Qed.

(** The digits [createCommitment] reads are those of the salt without
    its prefix, whether the prefix was written or not. *)
Lemma createCommitment_digits (saltHex : string) :
  JSString.slice (if JSString.startsWith saltHex "0x" then saltHex
                  else ("0x" ++ saltHex)%string) 2
  = GameReveal.saltClean saltHex.
Proof.
  unfold GameReveal.saltClean.
  destruct (JSString.startsWith saltHex "0x"); reflexivity.
Qed.

Lemma BigInt_0x_padded (digits : string) :
  JSString.allHex digits = true ->
  (String.length digits <= 64)%nat ->
  exists v, JSString.parseHex 0 digits = Some v
            /\ 0 <= v < 2 ^ 256
            /\ JSString.BigInt_0x (JSString.padStart digits 64 "0") = Some v.
Proof.
  intros Hhex Hlen.
  destruct (parseHex_allHex digits 0 Hhex) as [v [Hv Hb]].
  exists v. split; [exact Hv |]. split.
  - assert (16 ^ Z.of_nat (String.length digits) <= 16 ^ 64)
      by (apply Z.pow_le_mono_r; lia).
    change (2 ^ 256) with (16 ^ 64). lia.
  - unfold JSString.BigInt_0x, JSString.padStart.
    rewrite trimEnd_allHex
      by (rewrite allHex_app, allHex_zeros, Hhex; reflexivity).
    rewrite <- Hv, <- (parseHex_leading_zeros (64 - String.length digits) digits).
    destruct (JSString.repeat "0" (64 - String.length digits) ++ digits)%string
      as [| c rest] eqn:E; [| reflexivity].
    apply (f_equal String.length) in E.
    rewrite length_string_app, length_repeat in E.
    change (String.length EmptyString) with 0%nat in E. lia.
Qed.

(** For a move code in range and a salt of at most 64 hexadecimal
    digits, with or without 0x, the bytes hashed are two words of 32
    bytes: the move code, then the salt. *)
Lemma createCommitment_encoded_words (m : Z) (saltHex : string) :
  1 <= m <= 5 ->
  JSString.allHex (GameReveal.saltClean saltHex) = true ->
  (String.length (GameReveal.saltClean saltHex) <= 64)%nat ->
  exists v, JSString.parseHex 0 (GameReveal.saltClean saltHex) = Some v
            /\ HashHelpers.createCommitment_encoded m saltHex
               = Return (Ethers.bigEndian 32 m ++ Ethers.bigEndian 32 v).
Proof.
  intros Hm Hhex Hlen.
  destruct (BigInt_0x_padded _ Hhex Hlen) as [v [Hv [Hrange Hbig]]].
  exists v. split; [exact Hv |].
  unfold HashHelpers.createCommitment_encoded.
  destruct (m <? 1) eqn:E1; [apply Z.ltb_lt in E1; lia |].
  destruct (5 <? m) eqn:E2; [apply Z.ltb_lt in E2; lia |].
  cbn [orb]. cbv zeta.
  rewrite createCommitment_digits, Hbig.
  cbn [orThrow bind]. unfold Ethers.abiEncode_uint8_uint256.
  destruct (0 <=? m) eqn:E3; [| apply Z.leb_gt in E3; lia].
  destruct (m <? 2 ^ 8) eqn:E4; [| apply Z.ltb_ge in E4; lia].
  destruct (0 <=? v) eqn:E5; [| apply Z.leb_gt in E5; lia].
  destruct (v <? 2 ^ 256) eqn:E6; [| apply Z.ltb_ge in E6; lia].
  reflexivity.
Qed.

(** The salt [generateSalt] renders from the 32 bytes of a secret. *)
Lemma saltClean_generateSalt (bytes : list Z) :
  GameReveal.saltClean (HashHelpers.generateSalt bytes) = Ethers.hexDigits bytes.
Proof. reflexivity. Qed.

Lemma createCommitment_encoded_secret (m s : Z) :
  1 <= m <= 5 -> 0 <= s < 2 ^ 256 ->
  HashHelpers.createCommitment_encoded
    m (HashHelpers.generateSalt (Ethers.bigEndian 32 s))
  = Return (Ethers.bigEndian 32 m ++ Ethers.bigEndian 32 s).
Proof.
  intros Hm Hs.
  destruct (createCommitment_encoded_words
              m (HashHelpers.generateSalt (Ethers.bigEndian 32 s)) Hm)
    as [v [Hv Henc]].
  - rewrite saltClean_generateSalt. apply allHex_hexDigits, bigEndian_bytes.
  - rewrite saltClean_generateSalt, length_hexDigits, length_bigEndian. lia.
  - rewrite saltClean_generateSalt, parseHex_hexDigits_value in Hv
      by apply bigEndian_bytes.
    rewrite (bigEndian_32_value s Hs) in Hv.
    assert (Hvs : s = v) by congruence.
    subst v. exact Henc.
Qed.

(** C1: what the code hashes.  At move 1 and the secret 1 the preimage
    handed to keccak256 is the ABI encoding, two words of 32 bytes (the
    move code padded with 31 zero bytes), 64 bytes in all; the packed
    layout of the claim, one byte then 32, has 33 bytes and is another
    byte string. *)
Theorem createCommitment_hashes_two_words (keccak256 : list Z -> string) :
  HashHelpers.createCommitment keccak256 1
    "0x0000000000000000000000000000000000000000000000000000000000000001"
  = Return (keccak256 (Ethers.bigEndian 32 1 ++ Ethers.bigEndian 32 1))
  /\ List.length (Ethers.bigEndian 32 1 ++ Ethers.bigEndian 32 1) = 64%nat
  /\ List.length (Ethers.solidityPacked_uint8_uint256 1 1) = 33%nat
  /\ Ethers.solidityPacked_uint8_uint256 1 1 = 1 :: Ethers.bigEndian 32 1
  /\ nth 0 (Ethers.bigEndian 32 1 ++ Ethers.bigEndian 32 1) 0 = 0.
Proof. repeat split; vm_compute; reflexivity. Qed.

(** The same for every move code and every 256-bit secret: the
    commitment is the hash of 64 bytes, never of the 33 packed ones. *)
Lemma createCommitment_preimage_length (keccak256 : list Z -> string) (m s : Z) :
  1 <= m <= 5 -> 0 <= s < 2 ^ 256 ->
  HashHelpers.createCommitment
    keccak256 m (HashHelpers.generateSalt (Ethers.bigEndian 32 s))
  = Return (keccak256 (Ethers.bigEndian 32 m ++ Ethers.bigEndian 32 s))
  /\ List.length (Ethers.bigEndian 32 m ++ Ethers.bigEndian 32 s) = 64%nat
  /\ List.length (Ethers.solidityPacked_uint8_uint256 m s) = 33%nat.
Proof.
  intros Hm Hs. unfold HashHelpers.createCommitment.
  rewrite (createCommitment_encoded_secret m s Hm Hs).
  unfold Ethers.solidityPacked_uint8_uint256.
  rewrite !length_app, !length_bigEndian. repeat split.
Qed.

(** C5: a move code below 1 or above 5 (0, the code of Null, among
    them) makes createCommitment throw the move-range error whatever the
    salt, and no commitment is returned; for a move code in 1..5 it
    returns the commitment: for a salt of at most 64 hexadecimal
    digits, with or without 0x, the digest of the move word followed by
    the word of the integer the digits spell, and so, for every
    256-bit secret as [generateSalt] renders it, the digest of the
    move word followed by the word of the secret. *)
Theorem createCommitment_move_range
    (keccak256 : list Z -> string) (m : Z) (saltHex : string) :
  (m < 1 \/ 5 < m ->
   HashHelpers.createCommitment keccak256 m saltHex
   = Throw (Error HashHelpers.moveRangeMessage))
  /\ (1 <= m <= 5 ->
      JSString.allHex (GameReveal.saltClean saltHex) = true ->
      (String.length (GameReveal.saltClean saltHex) <= 64)%nat ->
      exists v,
        JSString.parseHex 0 (GameReveal.saltClean saltHex) = Some v
        /\ 0 <= v < 2 ^ 256
        /\ HashHelpers.createCommitment keccak256 m saltHex
           = Return (keccak256 (Ethers.bigEndian 32 m ++ Ethers.bigEndian 32 v)))
  /\ (1 <= m <= 5 ->
      forall secret, 0 <= secret < 2 ^ 256 ->
        HashHelpers.createCommitment keccak256 m
          (HashHelpers.generateSalt (Ethers.bigEndian 32 secret))
        = Return (keccak256 (Ethers.bigEndian 32 m ++ Ethers.bigEndian 32 secret))).
Proof.
  split; [| split].
  - intros Hout.
    unfold HashHelpers.createCommitment, HashHelpers.createCommitment_encoded.
    destruct (m <? 1) eqn:E1; [reflexivity |].
    destruct (5 <? m) eqn:E2; [reflexivity |].
    apply Z.ltb_ge in E1. apply Z.ltb_ge in E2. lia.
  - intros Hm Hhex Hlen.
    destruct (createCommitment_encoded_words m saltHex Hm Hhex Hlen) as [v [Hv Henc]].
    destruct (BigInt_0x_padded _ Hhex Hlen) as [v' [Hv' [Hrange _]]].
    assert (v' = v) by congruence. subst v'.
    exists v. split; [exact Hv |]. split; [exact Hrange |].
    unfold HashHelpers.createCommitment. rewrite Henc. reflexivity.
  - intros Hm secret Hs.
    unfold HashHelpers.createCommitment.
    rewrite (createCommitment_encoded_secret m secret Hm Hs). reflexivity.
Qed.

Lemma createCommitment_move_range_witness :
  ((0 < 1 \/ 5 < 0) /\ 1 <= 3 <= 5
   /\ JSString.allHex (GameReveal.saltClean "0x00ff") = true
   /\ (String.length (GameReveal.saltClean "0x00ff") <= 64)%nat
   /\ 0 <= 255 < 2 ^ 256)
  /\ (HashHelpers.createCommitment Ethers.hexlify 0 "0x00ff"
      = Throw (Error HashHelpers.moveRangeMessage))
  /\ (exists v,
        JSString.parseHex 0 (GameReveal.saltClean "0x00ff") = Some v
        /\ 0 <= v < 2 ^ 256
        /\ HashHelpers.createCommitment Ethers.hexlify 3 "0x00ff"
           = Return (Ethers.hexlify (Ethers.bigEndian 32 3 ++ Ethers.bigEndian 32 v)))
  /\ HashHelpers.createCommitment Ethers.hexlify 3
       (HashHelpers.generateSalt (Ethers.bigEndian 32 255))
     = Return (Ethers.hexlify (Ethers.bigEndian 32 3 ++ Ethers.bigEndian 32 255)).
Proof.
  split; [| split; [| split]].
  - repeat split; try lia. vm_compute. lia.
  - exact (proj1 (createCommitment_move_range Ethers.hexlify 0 "0x00ff")
                 (or_introl (eq_refl : (0 ?= 1) = Lt))).
  - apply (proj1 (proj2 (createCommitment_move_range Ethers.hexlify 3 "0x00ff"))).
    + lia.
    + reflexivity.
    + vm_compute. lia.
  - apply (proj2 (proj2 (createCommitment_move_range
                           Ethers.hexlify 3 "0x00ff"))); lia.
Defined.

(** ** The dominance relation *)

Lemma Move_eqb_eq (a b : MoveRules.Move) : MoveRules.Move_eqb a b = true <-> a = b.
Proof. destruct a, b; simpl; split; intros H; try reflexivity; discriminate. Qed.

(** Each move defeats the two moves of its rule, as the client lists
    them. *)
Lemma dominanceSet_table :
  MoveRules.dominanceSet MoveRules.Rock = [MoveRules.Scissors; MoveRules.Lizard]
  /\ MoveRules.dominanceSet MoveRules.Paper = [MoveRules.Rock; MoveRules.Spock]
  /\ MoveRules.dominanceSet MoveRules.Scissors = [MoveRules.Paper; MoveRules.Lizard]
  /\ MoveRules.dominanceSet MoveRules.Spock = [MoveRules.Rock; MoveRules.Scissors]
  /\ MoveRules.dominanceSet MoveRules.Lizard = [MoveRules.Paper; MoveRules.Spock].
Proof. repeat split. Qed.

(** C3: for non-Null moves, a move ties with itself; of two distinct
    moves exactly one defeats the other; and the first wins exactly on
    the ten pairs of the table: Rock beats Scissors and Lizard, Paper
    beats Rock and Spock, Scissors beats Paper and Lizard, Spock beats
    Rock and Scissors, Lizard beats Paper and Spock. *)
Theorem beats_table (a b : MoveRules.Move) :
  a <> MoveRules.Null -> b <> MoveRules.Null ->
  MoveRules.beats a a = MoveRules.Tie
  /\ (a <> b ->
      (MoveRules.beats a b = MoveRules.FirstWins
       /\ MoveRules.beats b a <> MoveRules.FirstWins)
      \/ (MoveRules.beats b a = MoveRules.FirstWins
          /\ MoveRules.beats a b <> MoveRules.FirstWins))
  /\ (MoveRules.beats a b = MoveRules.FirstWins <->
      In (a, b)
         [ (MoveRules.Rock, MoveRules.Scissors); (MoveRules.Rock, MoveRules.Lizard);
           (MoveRules.Paper, MoveRules.Rock); (MoveRules.Paper, MoveRules.Spock);
           (MoveRules.Scissors, MoveRules.Paper); (MoveRules.Scissors, MoveRules.Lizard);
           (MoveRules.Spock, MoveRules.Rock); (MoveRules.Spock, MoveRules.Scissors);
           (MoveRules.Lizard, MoveRules.Paper); (MoveRules.Lizard, MoveRules.Spock) ]).
Proof.
  intros Ha Hb.
  destruct a; try contradiction; destruct b; try contradiction;
    (split; [reflexivity |]);
    (split;
     [ intros Hab;
       first [ contradiction
             | left; split; [reflexivity | discriminate]
             | right; split; [reflexivity | discriminate] ]
     | solve_move_membership ]).
Qed.

Lemma beats_table_witness :
  (MoveRules.Rock <> MoveRules.Null /\ MoveRules.Scissors <> MoveRules.Null)
  /\ MoveRules.beats MoveRules.Rock MoveRules.Rock = MoveRules.Tie
  /\ (MoveRules.Rock <> MoveRules.Scissors ->
      (MoveRules.beats MoveRules.Rock MoveRules.Scissors = MoveRules.FirstWins
       /\ MoveRules.beats MoveRules.Scissors MoveRules.Rock <> MoveRules.FirstWins)
      \/ (MoveRules.beats MoveRules.Scissors MoveRules.Rock = MoveRules.FirstWins
          /\ MoveRules.beats MoveRules.Rock MoveRules.Scissors <> MoveRules.FirstWins))
  /\ (MoveRules.beats MoveRules.Rock MoveRules.Scissors = MoveRules.FirstWins <->
      In (MoveRules.Rock, MoveRules.Scissors)
         [ (MoveRules.Rock, MoveRules.Scissors); (MoveRules.Rock, MoveRules.Lizard);
           (MoveRules.Paper, MoveRules.Rock); (MoveRules.Paper, MoveRules.Spock);
           (MoveRules.Scissors, MoveRules.Paper); (MoveRules.Scissors, MoveRules.Lizard);
           (MoveRules.Spock, MoveRules.Rock); (MoveRules.Spock, MoveRules.Scissors);
           (MoveRules.Lizard, MoveRules.Paper); (MoveRules.Lizard, MoveRules.Spock) ]).
Proof.
  split; [split; discriminate |].
  apply (beats_table MoveRules.Rock MoveRules.Scissors); discriminate.
Defined.

(** ** GameStatus: phases and timeouts *)

Section GameStatusFacts.

Variable isAddress : string -> bool.
Variable formatEther : Z -> string.

(** With a valid address and all reads answered, a state is loaded. *)
Lemma loadGameState_total (address : string) (r : contractReads)
    (signerAddress : string) (now : Z) :
  JSString.falsy address = false -> isAddress address = true ->
  exists gs,
    GameStatus.loadGameState isAddress formatEther address
      (Some r) (Some signerAddress) now = GameStatus.Loaded gs.
Proof.
  intros Hne Haddr. unfold GameStatus.loadGameState.
  rewrite Hne, Haddr. simpl. eexists. reflexivity.
Qed.

(** What a loaded state holds, field by field. *)
Lemma loadGameState_fields (address : string) (reads : option contractReads)
    (signer : option string) (now : Z) (gs : GameStatus.gameState) :
  GameStatus.loadGameState isAddress formatEther address reads signer now
  = GameStatus.Loaded gs ->
  exists r signerAddress,
    reads = Some r /\ signer = Some signerAddress
    /\ GameStatus.stakeWei gs = stake r
    /\ GameStatus.gs_c2 gs = JSNumber.toNumber (c2 r)
    /\ GameStatus.timeout gs = JSNumber.toNumber (TIMEOUT r)
    /\ GameStatus.timeSinceLastAction gs
       = JSNumber.sub now (JSNumber.toNumber (lastAction r))
    /\ GameStatus.isTimedOut gs
       = (GameStatus.timeout gs <? GameStatus.timeSinceLastAction gs)
    /\ {| GameStatus.pv_phase := GameStatus.phase gs;
          GameStatus.pv_canTimeout := GameStatus.canTimeout gs;
          GameStatus.pv_timeoutFunction := GameStatus.timeoutFunction gs |}
       = GameStatus.determinePhase (GameStatus.stakeWei gs) (GameStatus.gs_c2 gs)
                                   (GameStatus.isTimedOut gs)
    /\ GameStatus.isJ1 gs = sameAddress signerAddress (j1 r)
    /\ GameStatus.isJ2 gs = sameAddress signerAddress (j2 r).
Proof.
  unfold GameStatus.loadGameState.
  destruct (JSString.falsy address || negb (isAddress address)); [discriminate |].
  destruct reads as [r |]; [| discriminate].
  destruct signer as [signerAddress |]; [| discriminate].
  intros [= <-]. exists r, signerAddress. cbn.
  repeat split.
  now destruct (GameStatus.determinePhase _ _ _).
Qed.

(** The three outcomes of the phase analysis. *)
Lemma determinePhase_cases (stakeNumber c2Number : Z) (timedOut : bool) :
  (stakeNumber = 0
   /\ GameStatus.determinePhase stakeNumber c2Number timedOut
      = {| GameStatus.pv_phase := GameStatus.phaseCompleted;
           GameStatus.pv_canTimeout := false;
           GameStatus.pv_timeoutFunction := None |})
  \/ (stakeNumber <> 0 /\ c2Number = 0
      /\ GameStatus.determinePhase stakeNumber c2Number timedOut
         = {| GameStatus.pv_phase := GameStatus.phaseWaitingForPlayer2;
              GameStatus.pv_canTimeout := timedOut;
              GameStatus.pv_timeoutFunction :=
                if timedOut then Some "j2Timeout"%string else None |})
  \/ (stakeNumber <> 0 /\ c2Number <> 0
      /\ GameStatus.determinePhase stakeNumber c2Number timedOut
         = {| GameStatus.pv_phase := GameStatus.phaseWaitingForReveal;
              GameStatus.pv_canTimeout := timedOut;
              GameStatus.pv_timeoutFunction :=
                if timedOut then Some "j1Timeout"%string else None |}).
Proof.
  unfold GameStatus.determinePhase.
  destruct (stakeNumber =? 0) eqn:Es.
  - left. apply Z.eqb_eq in Es. now split.
  - apply Z.eqb_neq in Es. destruct (c2Number =? 0) eqn:Ec.
    + right; left. apply Z.eqb_eq in Ec. destruct timedOut; now repeat split.
    + right; right. apply Z.eqb_neq in Ec. destruct timedOut; now repeat split.
Qed.

(** A timeout is offered exactly when the stake is not zero and the
    time computed since the last action exceeds the timeout. *)
Lemma canTimeout_iff (address : string) (reads : option contractReads)
    (signer : option string) (now : Z) (gs : GameStatus.gameState) :
  GameStatus.loadGameState isAddress formatEther address reads signer now
  = GameStatus.Loaded gs ->
  GameStatus.canTimeout gs = true <->
  GameStatus.stakeWei gs <> 0
  /\ GameStatus.timeSinceLastAction gs > GameStatus.timeout gs.
Proof.
  intros H. apply loadGameState_fields in H.
  destruct H as (r & sa & _ & _ & _ & _ & _ & _ & Ht & Hv & _).
  destruct (determinePhase_cases (GameStatus.stakeWei gs) (GameStatus.gs_c2 gs)
                                 (GameStatus.isTimedOut gs))
    as [[Hs E] | [(Hs & _ & E) | (Hs & _ & E)]];
    rewrite E in Hv; injection Hv as _ Hc _; rewrite Hc.
  - split; [discriminate | intros [Hne _]; contradiction].
  - rewrite Ht, Z.ltb_lt. split; [intros; split; [assumption | lia] | intros [_ ?]; lia].
  - rewrite Ht, Z.ltb_lt. split; [intros; split; [assumption | lia] | intros [_ ?]; lia].
Qed.

(** C4, amended: for a contract whose stake is not zero, a timeout is
    offered if and only if now - lastAction is strictly greater than the
    timeout, so none is offered at or before lastAction + timeout; once
    the stake is zero (the game is completed) none is offered however
    long ago the last action was.  The timestamps are seconds within
    the safe integers, where the subtraction is exact. *)
Theorem timeout_offered_iff (address : string) (r : contractReads)
    (signerAddress : string) (now : Z) (gs : GameStatus.gameState) :
  GameStatus.loadGameState isAddress formatEther address
    (Some r) (Some signerAddress) now = GameStatus.Loaded gs ->
  0 <= lastAction r <= JSNumber.MAX_SAFE_INTEGER ->
  0 <= TIMEOUT r <= JSNumber.MAX_SAFE_INTEGER ->
  0 <= now <= JSNumber.MAX_SAFE_INTEGER ->
  (GameStatus.canTimeout gs = true <->
   stake r <> 0 /\ now - lastAction r > TIMEOUT r)
  /\ (now <= lastAction r + TIMEOUT r -> GameStatus.canTimeout gs = false)
  /\ (stake r = 0 -> GameStatus.canTimeout gs = false).
Proof.
  unfold JSNumber.MAX_SAFE_INTEGER. intros H Hl Ht Hn.
  pose proof (canTimeout_iff _ _ _ _ _ H) as Hiff.
  apply loadGameState_fields in H.
  destruct H as (r' & sa & [= <-] & _ & Hs & _ & Hto & Hsince & _).
  rewrite Hs, Hto, Hsince in Hiff.
  rewrite (toNumber_exact (TIMEOUT r)) in Hiff by lia.
  rewrite (toNumber_exact (lastAction r)) in Hiff by lia.
  rewrite sub_exact in Hiff by lia.
  split; [exact Hiff |].
  split; intros Hno;
    destruct (GameStatus.canTimeout gs); try reflexivity;
    destruct Hiff as [Hiff _]; specialize (Hiff eq_refl); lia.
Qed.

(** Every loaded state is in one of three phases, told apart by the
    stake and the second move. *)
Lemma phase_cases (address : string) (r : contractReads)
    (signerAddress : string) (now : Z) (gs : GameStatus.gameState) :
  GameStatus.loadGameState isAddress formatEther address
    (Some r) (Some signerAddress) now = GameStatus.Loaded gs ->
  (stake r = 0 /\ GameStatus.phase gs = GameStatus.phaseCompleted)
  \/ (stake r <> 0 /\ JSNumber.toNumber (c2 r) = 0
      /\ GameStatus.phase gs = GameStatus.phaseWaitingForPlayer2)
  \/ (stake r <> 0 /\ JSNumber.toNumber (c2 r) <> 0
      /\ GameStatus.phase gs = GameStatus.phaseWaitingForReveal).
Proof.
  intros H. apply loadGameState_fields in H.
  destruct H as (r' & sa & [= <-] & _ & Hs & Hc & _ & _ & _ & Hv & _).
  rewrite <- Hs, <- Hc.
  destruct (determinePhase_cases (GameStatus.stakeWei gs) (GameStatus.gs_c2 gs)
                                 (GameStatus.isTimedOut gs))
    as [[Hz E] | [(Hz & Hc2 & E) | (Hz & Hc2 & E)]];
    rewrite E in Hv; injection Hv as Hp _ _; rewrite Hp; tauto.
Qed.

(** C2, amended: the names are those of the contract, which names the
    party that timed out.  For a player who loads the state of a game
    and then claims the timeout on the same contract address with the
    same wallet, the transaction j1Timeout is sent if and only if the
    address is valid, the game holds a stake, player 2 has played (c2
    is not Null), now - lastAction is strictly greater than the
    timeout, and the caller is player 2; j2Timeout if and only if the
    address is valid, the game holds a stake, player 2 has not played,
    now - lastAction is strictly greater than the timeout, and the
    caller is player 1.  The phase shown is the reveal phase exactly in
    the first situation of the contract, the wait for player 2 exactly
    in the second.  The second move and the times in seconds are within
    the safe integers, where the conversions are exact. *)
Theorem timeout_call_by_phase (address : string) (r : contractReads)
    (caller : string) (now : Z) :
  0 <= c2 r <= JSNumber.MAX_SAFE_INTEGER ->
  0 <= lastAction r <= JSNumber.MAX_SAFE_INTEGER ->
  0 <= TIMEOUT r <= JSNumber.MAX_SAFE_INTEGER ->
  0 <= now <= JSNumber.MAX_SAFE_INTEGER ->
  (GameStatus.loadThenCallTimeout isAddress formatEther address
     (Some r) (Some caller) now = GameStatus.Send_j1Timeout
   <-> JSString.falsy address = false /\ isAddress address = true
       /\ stake r <> 0 /\ c2 r <> 0
       /\ now - lastAction r > TIMEOUT r
       /\ sameAddress caller (j2 r) = true)
  /\ (GameStatus.loadThenCallTimeout isAddress formatEther address
        (Some r) (Some caller) now = GameStatus.Send_j2Timeout
      <-> JSString.falsy address = false /\ isAddress address = true
          /\ stake r <> 0 /\ c2 r = 0
          /\ now - lastAction r > TIMEOUT r
          /\ sameAddress caller (j1 r) = true)
  /\ (forall gs,
        GameStatus.loadGameState isAddress formatEther address
          (Some r) (Some caller) now = GameStatus.Loaded gs ->
        (GameStatus.phase gs = GameStatus.phaseWaitingForReveal
         <-> stake r <> 0 /\ c2 r <> 0)
        /\ (GameStatus.phase gs = GameStatus.phaseWaitingForPlayer2
            <-> stake r <> 0 /\ c2 r = 0)
        /\ (GameStatus.phase gs = GameStatus.phaseCompleted <-> stake r = 0)).
Proof.
  unfold JSNumber.MAX_SAFE_INTEGER. intros Hc Hl Ht Hn.
  unfold GameStatus.loadThenCallTimeout, GameStatus.loadGameState.
  rewrite (toNumber_exact (c2 r)) by lia.
  rewrite (toNumber_exact (lastAction r)) by lia.
  rewrite (toNumber_exact (TIMEOUT r)) by lia.
  rewrite sub_exact by lia.
  destruct (JSString.falsy address); cbn [orb negb].
  { repeat split; intros; try discriminate; intuition discriminate. }
  destruct (isAddress address); cbn [orb negb].
  2: { repeat split; intros; try discriminate; intuition discriminate. }
  unfold GameStatus.determinePhase, GameStatus.callTimeout.
  destruct (stake r =? 0) eqn:Es; [apply Z.eqb_eq in Es | apply Z.eqb_neq in Es];
    (destruct (c2 r =? 0) eqn:Ec; [apply Z.eqb_eq in Ec | apply Z.eqb_neq in Ec]);
    (destruct (TIMEOUT r <? now - lastAction r) eqn:Et;
       [apply Z.ltb_lt in Et | apply Z.ltb_ge in Et]);
    destruct (sameAddress caller (j1 r)), (sameAddress caller (j2 r));
    cbn; (split; [| split]);
    try (intros gs [= <-]; cbn);
    repeat split; intros; try discriminate; try reflexivity; try assumption;
    try lia; try tauto;
    try (exfalso; intuition (try discriminate; lia)).
Qed.

End GameStatusFacts.

Lemma timeout_offered_iff_witness :
  exists gs,
    GameStatus.loadGameState Ethers.isAddress Ethers.formatEther Scenario.game
      (Some Scenario.joined) (Some Scenario.bob) 1500 = GameStatus.Loaded gs
    /\ (0 <= lastAction Scenario.joined <= JSNumber.MAX_SAFE_INTEGER
        /\ 0 <= TIMEOUT Scenario.joined <= JSNumber.MAX_SAFE_INTEGER
        /\ 0 <= 1500 <= JSNumber.MAX_SAFE_INTEGER)
    /\ (GameStatus.canTimeout gs = true <->
        stake Scenario.joined <> 0
        /\ 1500 - lastAction Scenario.joined > TIMEOUT Scenario.joined)
    /\ (1500 <= lastAction Scenario.joined + TIMEOUT Scenario.joined ->
        GameStatus.canTimeout gs = false)
    /\ (stake Scenario.joined = 0 -> GameStatus.canTimeout gs = false).
Proof.
  eexists. split; [reflexivity |].
  split; [vm_compute; intuition discriminate |].
  apply (timeout_offered_iff Ethers.isAddress Ethers.formatEther Scenario.game
           Scenario.joined Scenario.bob 1500 _ eq_refl);
    vm_compute; intuition discriminate.
Defined.

(** C4, as stated, fails on a completed game: the stake is zero, 900
    seconds have passed since the last action against a timeout of 300,
    and no timeout is offered. *)
Lemma no_timeout_once_stake_is_zero :
  exists gs,
    GameStatus.loadGameState Ethers.isAddress Ethers.formatEther Scenario.game
      (Some Scenario.settled) (Some Scenario.bob) 2000 = GameStatus.Loaded gs
    /\ GameStatus.canTimeout gs = false
    /\ GameStatus.isTimedOut gs = true
    /\ 2000 - lastAction Scenario.settled > TIMEOUT Scenario.settled.
Proof. eexists. repeat split. Qed.

Lemma timeout_call_by_phase_witness :
  (0 <= c2 Scenario.joined <= JSNumber.MAX_SAFE_INTEGER
   /\ 0 <= lastAction Scenario.joined <= JSNumber.MAX_SAFE_INTEGER
   /\ 0 <= TIMEOUT Scenario.joined <= JSNumber.MAX_SAFE_INTEGER
   /\ 0 <= 2000 <= JSNumber.MAX_SAFE_INTEGER)
  /\ GameStatus.loadThenCallTimeout Ethers.isAddress Ethers.formatEther
       Scenario.game (Some Scenario.joined) (Some Scenario.bob) 2000
     = GameStatus.Send_j1Timeout
  /\ (JSString.falsy Scenario.game = false
      /\ Ethers.isAddress Scenario.game = true
      /\ stake Scenario.joined <> 0 /\ c2 Scenario.joined <> 0
      /\ 2000 - lastAction Scenario.joined > TIMEOUT Scenario.joined
      /\ sameAddress Scenario.bob (j2 Scenario.joined) = true).
Proof.
  assert (Hc : 0 <= c2 Scenario.joined <= JSNumber.MAX_SAFE_INTEGER)
    by (vm_compute; intuition discriminate).
  assert (Hl : 0 <= lastAction Scenario.joined <= JSNumber.MAX_SAFE_INTEGER)
    by (vm_compute; intuition discriminate).
  assert (Ht : 0 <= TIMEOUT Scenario.joined <= JSNumber.MAX_SAFE_INTEGER)
    by (vm_compute; intuition discriminate).
  assert (Hn : 0 <= 2000 <= JSNumber.MAX_SAFE_INTEGER)
    by (vm_compute; intuition discriminate).
  split; [now repeat split |].
  split; [reflexivity |].
  exact (proj1 (proj1 (timeout_call_by_phase Ethers.isAddress Ethers.formatEther
                         Scenario.game Scenario.joined Scenario.bob 2000
                         Hc Hl Ht Hn))
               eq_refl).
Defined.

(** C2, as stated, fails: while player 1 has yet to reveal and the
    timeout has passed, the claim open to player 2 (Bob) is the
    transaction j1Timeout, not j2Timeout, and player 1 (Alice) is
    refused; while player 2 has yet to join, the claim open to player 1
    is j2Timeout, and player 2 is refused. *)
Lemma timeout_names_are_the_contracts :
  (exists gs,
     GameStatus.loadGameState Ethers.isAddress Ethers.formatEther Scenario.game
       (Some Scenario.joined) (Some Scenario.bob) 2000 = GameStatus.Loaded gs
     /\ GameStatus.phase gs = GameStatus.phaseWaitingForReveal
     /\ GameStatus.timeoutFunction gs = Some "j1Timeout"%string
     /\ GameStatus.callTimeout (Some gs) (Some Scenario.bob) = GameStatus.Send_j1Timeout)
  /\ (exists gs,
        GameStatus.loadGameState Ethers.isAddress Ethers.formatEther Scenario.game
          (Some Scenario.joined) (Some Scenario.alice) 2000 = GameStatus.Loaded gs
        /\ GameStatus.callTimeout (Some gs) (Some Scenario.alice)
           = GameStatus.TimeoutAlert GameStatus.OnlyPlayer2CanCallJ1Timeout)
  /\ (exists gs,
        GameStatus.loadGameState Ethers.isAddress Ethers.formatEther Scenario.game
          (Some Scenario.created) (Some Scenario.alice) 2000 = GameStatus.Loaded gs
        /\ GameStatus.phase gs = GameStatus.phaseWaitingForPlayer2
        /\ GameStatus.timeoutFunction gs = Some "j2Timeout"%string
        /\ GameStatus.callTimeout (Some gs) (Some Scenario.alice)
           = GameStatus.Send_j2Timeout)
  /\ (exists gs,
        GameStatus.loadGameState Ethers.isAddress Ethers.formatEther Scenario.game
          (Some Scenario.created) (Some Scenario.bob) 2000 = GameStatus.Loaded gs
        /\ GameStatus.callTimeout (Some gs) (Some Scenario.bob)
           = GameStatus.TimeoutAlert GameStatus.OnlyPlayer1CanCallJ2Timeout).
Proof. repeat split; eexists; repeat split. Qed.

(** ** GameCreation: what a deployment requires *)

Lemma falsy_false_iff (s : string) : JSString.falsy s = false <-> s <> EmptyString.
Proof. destruct s; simpl; split; intros H; congruence. Qed.

Section GameCreationFacts.

Variable isAddress : string -> bool.
Variable parseEther : string -> option Z.

(** What holds of the form whenever [handleCreateGame] asks for a
    deployment. *)
Lemma handleCreateGame_deploys (st : GameCreation.state) (signer : option string)
    (c opp : string) (v : Z) :
  GameCreation.handleCreateGame isAddress parseEther st signer
  = GameCreation.Deploy c opp v ->
  exists creator,
    signer = Some creator
    /\ sameAddress opp creator = false
    /\ c = GameCreation.commitment st
    /\ opp = GameCreation.opponent st
    /\ parseEther (GameCreation.stake st) = Some v
    /\ isAddress opp = true
    /\ JSString.falsy (GameCreation.salt st) = false
    /\ JSString.falsy (GameCreation.commitment st) = false.
Proof.
  unfold GameCreation.handleCreateGame, GameCreation.parseEth,
    GameCreation.isValidAddress.
  destruct (JSString.falsy (GameCreation.salt st)) eqn:Es; [discriminate |].
  destruct (JSString.falsy (GameCreation.commitment st)) eqn:Ec; [discriminate |].
  destruct (JSString.falsy (GameCreation.opponent st)) eqn:Eo; [discriminate |].
  destruct (isAddress (GameCreation.opponent st)) eqn:Ea; [| discriminate].
  destruct (parseEther (GameCreation.stake st)) as [amount |] eqn:Ep;
    [| discriminate].
  destruct signer as [creator |]; [| discriminate].
  cbn.
  destruct (sameAddress (GameCreation.opponent st) creator) eqn:Esame;
    [discriminate |].
  intros [= <- <- <-]. exists creator. now repeat split.
Qed.

(** With every check passed, [handleCreateGame] asks for the
    deployment with whatever value the stake parses to. *)
Lemma handleCreateGame_passes (st : GameCreation.state) (creator : string) (v : Z) :
  GameCreation.salt st <> EmptyString ->
  GameCreation.commitment st <> EmptyString ->
  GameCreation.opponent st <> EmptyString ->
  isAddress (GameCreation.opponent st) = true ->
  sameAddress (GameCreation.opponent st) creator = false ->
  parseEther (GameCreation.stake st) = Some v ->
  GameCreation.handleCreateGame isAddress parseEther st (Some creator)
  = GameCreation.Deploy (GameCreation.commitment st) (GameCreation.opponent st) v.
Proof.
  intros Hsalt Hcom Hopp Haddr Hdiff Hparse.
  apply falsy_false_iff in Hsalt. apply falsy_false_iff in Hcom.
  apply falsy_false_iff in Hopp.
  unfold GameCreation.handleCreateGame, GameCreation.isValidAddress,
    GameCreation.parseEth.
  rewrite Hsalt, Hcom, Hopp, Haddr, Hparse. cbn [orb negb orThrow].
  rewrite Hdiff. reflexivity.
Qed.


End GameCreationFacts.



(** ** GameJoin: the guards of a join *)

Section GameJoinFacts.

Variable isAddress : string -> bool.
Variable formatEther : Z -> string.
Variable parseEther : string -> option Z.




End GameJoinFacts.


(** The join that goes through: Bob, on the game Alice created, sends
    play(Rock) with the stake read from the contract. *)
Example bob_joins :
  GameJoin.loadThenJoin Ethers.isAddress Ethers.formatEther Ethers.parseEther
    Scenario.game 0 (Some Scenario.created) (Some Scenario.bob)
  = GameJoin.Play 1 100000000000000.
Proof. vm_compute. reflexivity. Qed.


(** ** The secret file: export, then import *)

(** The salt the creation form holds after Generate Salt: 0x and the 64
    digits of the 32 random bytes. *)
Lemma handleGenerateSalt_salt (keccak256 : list Z -> string)
    (st : GameCreation.state) (randomBytes : list Z) :
  0 <= GameCreation.move st <= 4 ->
  List.length randomBytes = 32%nat ->
  forallb Ethers.isByte randomBytes = true ->
  exists hash,
    fst (GameCreation.handleGenerateSalt keccak256 st randomBytes)
    = {| GameCreation.opponent := GameCreation.opponent st;
         GameCreation.stake := GameCreation.stake st;
         GameCreation.move := GameCreation.move st;
         GameCreation.salt := Ethers.hexlify randomBytes;
         GameCreation.commitment := hash |}
    /\ String.length (Ethers.hexDigits randomBytes) = 64%nat
    /\ JSString.allHex (Ethers.hexDigits randomBytes) = true.
Proof.
  intros Hm Hlen Hbytes. unfold GameCreation.handleGenerateSalt.
  destruct (createCommitment_encoded_words
              (HashHelpers.uiMoveToContract (GameCreation.move st))
              (HashHelpers.generateSalt randomBytes)) as [v [_ Henc]].
  - unfold HashHelpers.uiMoveToContract. rewrite add_exact; lia.
  - rewrite saltClean_generateSalt. now apply allHex_hexDigits.
  - rewrite saltClean_generateSalt, length_hexDigits, Hlen. lia.
  - unfold HashHelpers.createCommitment. rewrite Henc. cbn [bind fst].
    eexists. repeat split.
    + rewrite length_hexDigits, Hlen. reflexivity.
    + now apply allHex_hexDigits.
Qed.

(** C8, as stated, fails: two exports that differ in the commitment and
    in the date are read back to the same reveal form, so neither field
    is restored by the import. *)
Lemma import_drops_commitment_and_date :
  exists file1 file2,
    GameCreation.handleDownloadSecret Scenario.form "2024-01-01T00:00:00.000Z"
    = inr file1
    /\ GameCreation.handleDownloadSecret Scenario.otherCommitment
         "2024-06-30T12:00:00.000Z" = inr file2
    /\ String.eqb (match sf_commitment file1 with Some c => c | None => EmptyString end)
                  (match sf_commitment file2 with Some c => c | None => EmptyString end)
       = false
    /\ String.eqb (match sf_createdAt file1 with Some c => c | None => EmptyString end)
                  (match sf_createdAt file2 with Some c => c | None => EmptyString end)
       = false
    /\ GameReveal.handleUploadSecret GameReveal.initialState (GameReveal.Parsed file1)
       = GameReveal.handleUploadSecret GameReveal.initialState (GameReveal.Parsed file2).
Proof. do 2 eexists. repeat split. Qed.

(** ** GameReveal: the zero salt *)

Section GameRevealFacts.

Variable isAddress : string -> bool.

(** What holds of the form whenever [handleReveal] sends solve. *)
Lemma handleReveal_solves (st : GameReveal.state) (signer : option string) (m s : Z) :
  GameReveal.handleReveal isAddress st signer = GameReveal.Solve m s ->
  m = GameReveal.move st /\ 1 <= m <= 5
  /\ JSString.BigInt_0x (GameReveal.saltClean (GameReveal.salt st)) = Some s
  /\ s <> 0.
Proof.
  unfold GameReveal.handleReveal, JSNumber.falsy.
  destruct (JSString.falsy (GameReveal.contractAddress st)
            || negb (isAddress (GameReveal.contractAddress st))); [discriminate |].
  destruct (JSString.falsy (GameReveal.salt st)); [discriminate |].
  destruct (GameReveal.move st <? 1) eqn:E1; [discriminate |].
  destruct (5 <? GameReveal.move st) eqn:E5; [discriminate |].
  cbn [orb].
  destruct signer; [| discriminate].
  destruct (JSString.BigInt_0x (GameReveal.saltClean (GameReveal.salt st)))
    as [big |]; [| discriminate].
  destruct (GameReveal.move st =? 0); [discriminate |]. cbn [orb].
  destruct (big =? 0) eqn:E0; [discriminate |]. cbn [orb].
  intros [= <- <-].
  apply Z.ltb_ge in E1. apply Z.ltb_ge in E5. apply Z.eqb_neq in E0.
  repeat split; lia.
Qed.

(** C9: a salt that parses to the integer 0 is refused before any
    transaction: whatever the rest of the form, the handler ends in an
    alert and sends nothing, and the alert is the invalid-salt-value
    one once the address, the salt field, the move and the signer have
    passed.  With [handleReveal_solves], solve is never sent with a
    salt of zero, so a commitment made with the zero secret cannot be
    opened from this form. *)
Theorem zero_salt_is_refused (st : GameReveal.state) (signer : option string) :
  JSString.BigInt_0x (GameReveal.saltClean (GameReveal.salt st)) = Some 0 ->
  (exists a, GameReveal.handleReveal isAddress st signer = GameReveal.RevealAlert a)
  /\ (JSString.falsy (GameReveal.contractAddress st) = false ->
      isAddress (GameReveal.contractAddress st) = true ->
      JSString.falsy (GameReveal.salt st) = false ->
      1 <= GameReveal.move st <= 5 ->
      signer <> None ->
      GameReveal.handleReveal isAddress st signer
      = GameReveal.RevealAlert GameReveal.InvalidSaltValue).
Proof.
  intros Hzero. split.
  - destruct (GameReveal.handleReveal isAddress st signer) as [a | m s] eqn:E.
    + exists a. reflexivity.
    + apply handleReveal_solves in E. destruct E as (_ & _ & Hs & Hne).
      rewrite Hzero in Hs. injection Hs as <-. contradiction.
  - intros Hne Haddr Hsalt Hm Hsigner.
    unfold GameReveal.handleReveal, JSNumber.falsy.
    rewrite Hne, Haddr, Hsalt, Hzero. cbn [orb negb].
    destruct (GameReveal.move st <? 1) eqn:E1; [apply Z.ltb_lt in E1; lia |].
    destruct (5 <? GameReveal.move st) eqn:E5; [apply Z.ltb_lt in E5; lia |].
    destruct (GameReveal.move st =? 0) eqn:E0; [apply Z.eqb_eq in E0; lia |].
    destruct signer; [reflexivity | contradiction].
Qed.

End GameRevealFacts.

Lemma zero_salt_is_refused_witness :
  JSString.BigInt_0x (GameReveal.saltClean (GameReveal.salt Scenario.zeroSalt)) = Some 0
  /\ (exists a,
        GameReveal.handleReveal Ethers.isAddress Scenario.zeroSalt (Some Scenario.alice)
        = GameReveal.RevealAlert a)
  /\ GameReveal.handleReveal Ethers.isAddress Scenario.zeroSalt (Some Scenario.alice)
     = GameReveal.RevealAlert GameReveal.InvalidSaltValue.
Proof.
  split; [reflexivity |]. split.
  - exact (proj1 (zero_salt_is_refused Ethers.isAddress Scenario.zeroSalt
                    (Some Scenario.alice) eq_refl)).
  - apply (proj2 (zero_salt_is_refused Ethers.isAddress Scenario.zeroSalt
                    (Some Scenario.alice) eq_refl));
      try reflexivity; try discriminate.
    vm_compute; intuition discriminate.
Defined.

(* ===================================================================== *)
(** * Part II, continued: what the handlers do beyond the ten claims *)
(* ===================================================================== *)

(** ** The salt, from the random bytes to the transaction *)

Lemma string_app_nonempty (s t : string) :
  t <> EmptyString -> (s ++ t)%string <> EmptyString.
Proof. destruct s; simpl; [auto | discriminate]. Qed.

(** White space at the end of a string is trimmed the same with any
    text put before it, as long as something is left. *)
Lemma trimEnd_app (s t : string) :
  JSString.trimEnd t <> EmptyString ->
  JSString.trimEnd (s ++ t) = (s ++ JSString.trimEnd t)%string.
Proof.
  intros Ht. induction s as [| c s IH]; [reflexivity |].
  cbn [append JSString.trimEnd]. rewrite IH.
  pose proof (string_app_nonempty s _ Ht) as Hne.
  destruct (s ++ JSString.trimEnd t)%string; [contradiction | reflexivity].
Qed.

Lemma parseHex_nonneg (s : string) : forall acc v,
  0 <= acc -> JSString.parseHex acc s = Some v -> 0 <= v.
Proof.
  induction s as [| c s IH]; intros acc v Hacc.
  - simpl. intros [= <-]. exact Hacc.
  - cbn [JSString.parseHex].
    destruct (JSString.hexDigitValue c) as [d |] eqn:Ed; [| discriminate].
    apply hexDigitValue_range in Ed. apply IH. lia.
Qed.

Lemma BigInt_0x_nonneg (digits : string) (v : Z) :
  JSString.BigInt_0x digits = Some v -> 0 <= v.
Proof.
  unfold JSString.BigInt_0x.
  destruct (JSString.trimEnd digits); [discriminate |].
  apply parseHex_nonneg. lia.
Qed.

(** Padding with zeros, as [createCommitment] does, does not change
    the integer a salt parses to at reveal. *)
Lemma BigInt_0x_padStart (digits : string) (v : Z) :
  JSString.BigInt_0x digits = Some v ->
  JSString.BigInt_0x (JSString.padStart digits 64 "0") = Some v.
Proof.
  unfold JSString.BigInt_0x, JSString.padStart. intros H.
  assert (Hne : JSString.trimEnd digits <> EmptyString)
    by (destruct (JSString.trimEnd digits); [discriminate | discriminate]).
  rewrite (trimEnd_app _ _ Hne).
  assert (Hv : JSString.parseHex 0 (JSString.trimEnd digits) = Some v)
    by (destruct (JSString.trimEnd digits); [discriminate | exact H]).
  pose proof (string_app_nonempty
                (JSString.repeat "0" (64 - String.length digits)) _ Hne) as Hne'.
  destruct (JSString.repeat "0" (64 - String.length digits)
            ++ JSString.trimEnd digits)%string eqn:E; [contradiction |].
  rewrite <- E, parseHex_leading_zeros. exact Hv.
Qed.

(** What [createCommitment] has checked when it returns. *)
Lemma createCommitment_encoded_returns (m : Z) (saltHex : string) (bytes : list Z) :
  HashHelpers.createCommitment_encoded m saltHex = Return bytes ->
  1 <= m <= 5
  /\ exists v,
       JSString.BigInt_0x (JSString.padStart (GameReveal.saltClean saltHex) 64 "0")
       = Some v
       /\ 0 <= v < 2 ^ 256
       /\ bytes = Ethers.bigEndian 32 m ++ Ethers.bigEndian 32 v.
Proof.
  unfold HashHelpers.createCommitment_encoded.
  destruct (m <? 1) eqn:E1; [discriminate |].
  destruct (5 <? m) eqn:E5; [discriminate |].
  cbn [orb]. cbv zeta. rewrite createCommitment_digits.
  destruct (JSString.BigInt_0x
              (JSString.padStart (GameReveal.saltClean saltHex) 64 "0"))
    as [v |]; [| discriminate].
  cbn [orThrow bind]. unfold Ethers.abiEncode_uint8_uint256.
  destruct (0 <=? m) eqn:E3; [| discriminate].
  destruct (m <? 2 ^ 8) eqn:E4; [| discriminate].
  destruct (0 <=? v) eqn:E6; [| discriminate].
  destruct (v <? 2 ^ 256) eqn:E7; [| discriminate].
  cbn [andb]. intros [= <-].
  apply Z.ltb_ge in E1. apply Z.ltb_ge in E5.
  apply Z.leb_le in E6. apply Z.ltb_lt in E7.
  split; [lia |]. exists v. repeat split; lia.
Qed.

Lemma createCommitment_encoded_of_value (m v : Z) (saltHex : string) :
  1 <= m <= 5 -> 0 <= v < 2 ^ 256 ->
  JSString.BigInt_0x (JSString.padStart (GameReveal.saltClean saltHex) 64 "0")
  = Some v ->
  HashHelpers.createCommitment_encoded m saltHex
  = Return (Ethers.bigEndian 32 m ++ Ethers.bigEndian 32 v).
Proof.
  intros Hm Hv Hbig. unfold HashHelpers.createCommitment_encoded.
  destruct (m <? 1) eqn:E1; [apply Z.ltb_lt in E1; lia |].
  destruct (5 <? m) eqn:E5; [apply Z.ltb_lt in E5; lia |].
  cbn [orb]. cbv zeta. rewrite createCommitment_digits, Hbig.
  cbn [orThrow bind]. unfold Ethers.abiEncode_uint8_uint256.
  destruct (0 <=? m) eqn:E3; [| apply Z.leb_gt in E3; lia].
  destruct (m <? 2 ^ 8) eqn:E4; [| apply Z.ltb_ge in E4; lia].
  destruct (0 <=? v) eqn:E6; [| apply Z.leb_gt in E6; lia].
  destruct (v <? 2 ^ 256) eqn:E7; [| apply Z.ltb_ge in E7; lia].
  reflexivity.
Qed.

(** X1: the move and the salt that [handleReveal] sends to solve are
    the ones [createCommitment] encodes for the same form: if the salt
    of the form is what the commitment was made from, the two words
    hashed are the move sent and the salt sent.  The padding with
    zeros, the optional 0x and white space at the end make no
    difference between the two readings of the salt. *)
Theorem reveal_sends_what_was_committed
    (isAddress : string -> bool) (st : GameReveal.state) (signer : option string)
    (m s : Z) :
  GameReveal.handleReveal isAddress st signer = GameReveal.Solve m s ->
  (s < 2 ^ 256 ->
   HashHelpers.createCommitment_encoded m (GameReveal.salt st)
   = Return (Ethers.bigEndian 32 m ++ Ethers.bigEndian 32 s))
  /\ (forall bytes,
        HashHelpers.createCommitment_encoded m (GameReveal.salt st) = Return bytes ->
        bytes = Ethers.bigEndian 32 m ++ Ethers.bigEndian 32 s).
Proof.
  intros H. apply handleReveal_solves in H.
  destruct H as (_ & Hm & Hbig & Hne).
  pose proof (BigInt_0x_nonneg _ _ Hbig) as Hpos.
  apply BigInt_0x_padStart in Hbig.
  split.
  - intros Hlt. apply createCommitment_encoded_of_value; [lia | lia | exact Hbig].
  - intros bytes Henc. apply createCommitment_encoded_returns in Henc.
    destruct Henc as (_ & v & Hv & _ & ->).
    rewrite Hbig in Hv. injection Hv as <-. reflexivity.
Qed.

Lemma reveal_sends_what_was_committed_witness :
  GameReveal.handleReveal Ethers.isAddress
    {| GameReveal.contractAddress := Scenario.game; GameReveal.move := 2;
       GameReveal.salt := "1f " |}
    (Some Scenario.alice)
  = GameReveal.Solve 2 31
  /\ (31 < 2 ^ 256 ->
      HashHelpers.createCommitment_encoded 2 "1f "
      = Return (Ethers.bigEndian 32 2 ++ Ethers.bigEndian 32 31)).
Proof.
  split; [reflexivity |].
  exact (proj1 (reveal_sends_what_was_committed Ethers.isAddress
                  {| GameReveal.contractAddress := Scenario.game;
                     GameReveal.move := 2; GameReveal.salt := "1f " |}
                  (Some Scenario.alice) 2 31 eq_refl)).
Defined.

Lemma fromBigEndian_range (l : list Z) :
  forallb Ethers.isByte l = true ->
  0 <= Ethers.fromBigEndian l < 256 ^ Z.of_nat (List.length l).
Proof.
  induction l as [| b l IH] using rev_ind; intros H.
  - simpl. unfold Ethers.fromBigEndian. simpl. lia.
  - rewrite forallb_app in H. apply andb_true_iff in H. destruct H as [Hl Hb].
    simpl in Hb. rewrite andb_true_r in Hb. apply isByte_range in Hb.
    specialize (IH Hl).
    rewrite fromBigEndian_snoc, length_app. simpl List.length.
    rewrite Nat.add_1_r, Nat2Z.inj_succ, Z.pow_succ_r by lia. lia.
Qed.

(** The bytes of the integer a byte string holds are the byte string. *)
Lemma bigEndian_fromBigEndian (l : list Z) :
  forallb Ethers.isByte l = true ->
  Ethers.bigEndian (List.length l) (Ethers.fromBigEndian l) = l.
Proof.
  induction l as [| b l IH] using rev_ind; intros H; [reflexivity |].
  rewrite forallb_app in H. apply andb_true_iff in H. destruct H as [Hl Hb].
  simpl in Hb. rewrite andb_true_r in Hb. apply isByte_range in Hb.
  rewrite fromBigEndian_snoc, length_app. simpl List.length.
  rewrite Nat.add_1_r. cbn [Ethers.bigEndian].
  replace ((256 * Ethers.fromBigEndian l + b) / 256) with (Ethers.fromBigEndian l)
    by (symmetry; rewrite Z.mul_comm, Z.div_add_l by lia;
        rewrite (Z.div_small b 256) by lia; lia).
  replace ((256 * Ethers.fromBigEndian l + b) mod 256) with b
    by (symmetry; rewrite Z.add_comm, Z.mul_comm, Z.mod_add by lia;
        apply Z.mod_small; lia).
  now rewrite (IH Hl).
Qed.

(** The salt rendered from 32 bytes parses, as at reveal, to the
    integer the bytes hold. *)
Lemma BigInt_0x_generateSalt (randomBytes : list Z) :
  List.length randomBytes = 32%nat ->
  forallb Ethers.isByte randomBytes = true ->
  JSString.BigInt_0x (GameReveal.saltClean (HashHelpers.generateSalt randomBytes))
  = Some (Ethers.fromBigEndian randomBytes)
  /\ 0 <= Ethers.fromBigEndian randomBytes < 2 ^ 256.
Proof.
  intros Hlen Hbytes.
  pose proof (fromBigEndian_range randomBytes Hbytes) as Hrange.
  rewrite Hlen in Hrange. change (256 ^ Z.of_nat 32) with (2 ^ 256) in Hrange.
  split; [| exact Hrange].
  rewrite saltClean_generateSalt. unfold JSString.BigInt_0x.
  rewrite trimEnd_allHex by now apply allHex_hexDigits.
  rewrite <- (parseHex_hexDigits_value randomBytes Hbytes).
  destruct (Ethers.hexDigits randomBytes) eqn:E; [| reflexivity].
  apply (f_equal String.length) in E.
  rewrite length_hexDigits, Hlen in E. discriminate.
Qed.

(** The commitment made from the rendered salt hashes the move word
    followed by the 32 bytes. *)
Lemma createCommitment_generateSalt
    (keccak256 : list Z -> string) (m : Z) (randomBytes : list Z) :
  List.length randomBytes = 32%nat ->
  forallb Ethers.isByte randomBytes = true ->
  1 <= m <= 5 ->
  HashHelpers.createCommitment keccak256 m (HashHelpers.generateSalt randomBytes)
  = Return (keccak256 (Ethers.bigEndian 32 m ++ randomBytes)).
Proof.
  intros Hlen Hbytes Hm.
  destruct (BigInt_0x_generateSalt randomBytes Hlen Hbytes) as [Hparse Hrange].
  unfold HashHelpers.createCommitment.
  rewrite (createCommitment_encoded_of_value m (Ethers.fromBigEndian randomBytes)).
  - cbn [bind]. rewrite <- Hlen at 2.
    now rewrite bigEndian_fromBigEndian.
  - exact Hm.
  - exact Hrange.
  - now apply BigInt_0x_padStart.
Qed.

(** ** The secret file: from Generate Salt to the reveal form *)

(** Whatever the creation form holds, as long as it holds a salt and a
    UI move in 0..4: the file written has the five fields, and reading
    it back sets the move code and the salt of the reveal form. *)
Lemma download_then_upload
    (form : GameCreation.state) (now : string) (reveal : GameReveal.state) :
  0 <= GameCreation.move form <= 4 ->
  GameCreation.salt form <> EmptyString ->
  exists file,
    GameCreation.handleDownloadSecret form now = inr file
    /\ sf_move file = Some (GameCreation.move form + 1)
    /\ sf_moveName file = GameCreation.moveNameAt (GameCreation.move form)
    /\ sf_salt file = Some (GameCreation.salt form)
    /\ sf_commitment file = Some (GameCreation.commitment form)
    /\ sf_createdAt file = Some now
    /\ sf_contractAddress file = None
    /\ GameReveal.handleUploadSecret reveal (GameReveal.Parsed file)
       = ({| GameReveal.contractAddress := GameReveal.contractAddress reveal;
             GameReveal.move := GameCreation.move form + 1;
             GameReveal.salt := GameCreation.salt form |},
          Some GameReveal.SecretLoaded).
Proof.
  intros Hm Hsalt. apply falsy_false_iff in Hsalt.
  unfold GameCreation.handleDownloadSecret. rewrite Hsalt.
  eexists. split; [reflexivity |].
  unfold HashHelpers.uiMoveToContract. rewrite add_exact by lia.
  cbn [sf_move sf_moveName sf_salt sf_commitment sf_createdAt sf_contractAddress].
  do 6 (split; [reflexivity |]).
  unfold GameReveal.handleUploadSecret.
  cbn [sf_move sf_salt sf_contractAddress GameReveal.moveFalsy
       GameReveal.stringFalsy].
  rewrite Hsalt. unfold JSNumber.falsy.
  destruct (GameCreation.move form + 1 =? 0) eqn:E;
    [apply Z.eqb_eq in E; lia | reflexivity].
Qed.

(** The five moves have names, none of them empty. *)
Lemma moveNameAt_named (uiMove : Z) :
  0 <= uiMove <= 4 ->
  exists name,
    GameCreation.moveNameAt uiMove = Some name
    /\ JSString.falsy name = false
    /\ HashHelpers.getMoveName uiMove = name.
Proof.
  intros H.
  assert (Hcases : uiMove = 0 \/ uiMove = 1 \/ uiMove = 2 \/ uiMove = 3 \/ uiMove = 4)
    by lia.
  destruct Hcases as [-> | [-> | [-> | [-> | ->]]]];
    eexists; (split; [reflexivity | split; [reflexivity | vm_compute; reflexivity]]).
Qed.

(** The text of 32 bytes is 0x and 64 hexadecimal digits. *)
Lemma is0xHex64_generateSalt (randomBytes : list Z) :
  List.length randomBytes = 32%nat ->
  forallb Ethers.isByte randomBytes = true ->
  SecretFormat.is0xHex64 (HashHelpers.generateSalt randomBytes) = true.
Proof.
  intros Hlen Hbytes. unfold SecretFormat.is0xHex64.
  change (JSString.slice (HashHelpers.generateSalt randomBytes) 2)
    with (Ethers.hexDigits randomBytes).
  change (JSString.startsWith (HashHelpers.generateSalt randomBytes) "0x")
    with true.
  rewrite length_hexDigits, Hlen, (allHex_hexDigits _ Hbytes). reflexivity.
Qed.

(** C8, amended: the record exported for a secret made by Generate Salt
    (UI move in 0..4, 32 random bytes) holds five fields: move, the
    contract code in 1..5; moveName, the name of the move; salt, 0x and
    the 64 hexadecimal digits of the secret; commitment, the digest as
    the library renders it, 0x and 64 hexadecimal digits; createdAt,
    the ISO 8601 text of the date.  Reading the record back sets the
    move code and the salt of the reveal form to the ones exported,
    the salt being read at the reveal as the secret generated, and
    shows the name of the move; the commitment and the date are
    written and not read back. *)
Theorem secret_file_round_trip
    (keccak256 : list Z -> string) (st : GameCreation.state)
    (randomBytes : list Z) (now : string) (reveal : GameReveal.state) :
  0 <= GameCreation.move st <= 4 ->
  List.length randomBytes = 32%nat ->
  forallb Ethers.isByte randomBytes = true ->
  SecretFormat.is0xHex64
    (keccak256 (Ethers.bigEndian 32 (GameCreation.move st + 1) ++ randomBytes))
  = true ->
  SecretFormat.isISOString now = true ->
  exists file name salt commitment,
    GameCreation.handleDownloadSecret
      (fst (GameCreation.handleGenerateSalt keccak256 st randomBytes)) now
    = inr file
    /\ file = {| sf_move := Some (GameCreation.move st + 1);
                 sf_moveName := Some name;
                 sf_salt := Some salt;
                 sf_commitment := Some commitment;
                 sf_createdAt := Some now;
                 sf_contractAddress := None |}
    /\ 1 <= GameCreation.move st + 1 <= 5
    /\ GameCreation.moveNameAt (GameCreation.move st) = Some name
    /\ HashHelpers.getMoveName (GameCreation.move st) = name
    /\ salt = HashHelpers.generateSalt randomBytes
    /\ SecretFormat.is0xHex64 salt = true
    /\ commitment
       = keccak256 (Ethers.bigEndian 32 (GameCreation.move st + 1) ++ randomBytes)
    /\ HashHelpers.createCommitment keccak256 (GameCreation.move st + 1) salt
       = Return commitment
    /\ SecretFormat.is0xHex64 commitment = true
    /\ SecretFormat.isISOString now = true
    /\ GameReveal.handleUploadSecret reveal (GameReveal.Parsed file)
       = ({| GameReveal.contractAddress := GameReveal.contractAddress reveal;
             GameReveal.move := GameCreation.move st + 1;
             GameReveal.salt := salt |},
          Some GameReveal.SecretLoaded)
    /\ GameReveal.shownMoveName file = Some name
    /\ JSString.BigInt_0x (GameReveal.saltClean salt)
       = Some (Ethers.fromBigEndian randomBytes).
Proof.
  intros Hm Hlen Hbytes Hdigest Hdate.
  assert (Hcode : HashHelpers.uiMoveToContract (GameCreation.move st)
                  = GameCreation.move st + 1)
    by (unfold HashHelpers.uiMoveToContract; rewrite add_exact; lia).
  assert (Hcommit :
            HashHelpers.createCommitment keccak256 (GameCreation.move st + 1)
              (HashHelpers.generateSalt randomBytes)
            = Return (keccak256 (Ethers.bigEndian 32 (GameCreation.move st + 1)
                                 ++ randomBytes)))
    by (apply createCommitment_generateSalt; [assumption | assumption | lia]).
  destruct (moveNameAt_named (GameCreation.move st) Hm) as (name & Hname & Hfalsy & Hget).
  unfold GameCreation.handleGenerateSalt. rewrite Hcode, Hcommit. cbn [fst].
  unfold GameCreation.handleDownloadSecret.
  cbn [GameCreation.salt GameCreation.move GameCreation.commitment].
  change (JSString.falsy (HashHelpers.generateSalt randomBytes)) with false.
  cbv iota. rewrite Hcode, Hname.
  exists {| sf_move := Some (GameCreation.move st + 1);
            sf_moveName := Some name;
            sf_salt := Some (HashHelpers.generateSalt randomBytes);
            sf_commitment :=
              Some (keccak256 (Ethers.bigEndian 32 (GameCreation.move st + 1)
                               ++ randomBytes));
            sf_createdAt := Some now;
            sf_contractAddress := None |},
    name, (HashHelpers.generateSalt randomBytes),
    (keccak256 (Ethers.bigEndian 32 (GameCreation.move st + 1) ++ randomBytes)).
  split; [reflexivity |]. split; [reflexivity |]. split; [lia |].
  split; [reflexivity |]. split; [exact Hget |]. split; [reflexivity |].
  split; [now apply is0xHex64_generateSalt |].
  split; [reflexivity |]. split; [exact Hcommit |].
  split; [exact Hdigest |]. split; [exact Hdate |].
  split; [| split].
  - unfold GameReveal.handleUploadSecret.
    cbn [sf_move sf_salt sf_contractAddress GameReveal.moveFalsy
         GameReveal.stringFalsy].
    change (JSString.falsy (HashHelpers.generateSalt randomBytes)) with false.
    unfold JSNumber.falsy.
    destruct (GameCreation.move st + 1 =? 0) eqn:E;
      [apply Z.eqb_eq in E; lia | reflexivity].
  - unfold GameReveal.shownMoveName.
    cbn [sf_moveName GameReveal.stringFalsy]. rewrite Hfalsy. reflexivity.
  - exact (proj1 (BigInt_0x_generateSalt randomBytes Hlen Hbytes)).
Qed.

Lemma secret_file_round_trip_witness :
  (0 <= GameCreation.move ScenarioFlow.blankForm <= 4
   /\ List.length ScenarioFlow.randomBytes = 32%nat
   /\ forallb Ethers.isByte ScenarioFlow.randomBytes = true
   /\ SecretFormat.is0xHex64
        (ScenarioFlow.low32Bytes
           (Ethers.bigEndian 32 (GameCreation.move ScenarioFlow.blankForm + 1)
            ++ ScenarioFlow.randomBytes)) = true
   /\ SecretFormat.isISOString "2024-01-01T00:00:00.000Z" = true)
  /\ exists file name salt commitment,
       GameCreation.handleDownloadSecret
         (fst (GameCreation.handleGenerateSalt ScenarioFlow.low32Bytes
                 ScenarioFlow.blankForm ScenarioFlow.randomBytes))
         "2024-01-01T00:00:00.000Z"
       = inr file
       /\ file = {| sf_move := Some (GameCreation.move ScenarioFlow.blankForm + 1);
                    sf_moveName := Some name;
                    sf_salt := Some salt;
                    sf_commitment := Some commitment;
                    sf_createdAt := Some "2024-01-01T00:00:00.000Z"%string;
                    sf_contractAddress := None |}
       /\ 1 <= GameCreation.move ScenarioFlow.blankForm + 1 <= 5
       /\ GameCreation.moveNameAt (GameCreation.move ScenarioFlow.blankForm)
          = Some name
       /\ HashHelpers.getMoveName (GameCreation.move ScenarioFlow.blankForm) = name
       /\ salt = HashHelpers.generateSalt ScenarioFlow.randomBytes
       /\ SecretFormat.is0xHex64 salt = true
       /\ commitment
          = ScenarioFlow.low32Bytes
              (Ethers.bigEndian 32 (GameCreation.move ScenarioFlow.blankForm + 1)
               ++ ScenarioFlow.randomBytes)
       /\ HashHelpers.createCommitment ScenarioFlow.low32Bytes
            (GameCreation.move ScenarioFlow.blankForm + 1) salt
          = Return commitment
       /\ SecretFormat.is0xHex64 commitment = true
       /\ SecretFormat.isISOString "2024-01-01T00:00:00.000Z" = true
       /\ GameReveal.handleUploadSecret GameReveal.initialState
            (GameReveal.Parsed file)
          = ({| GameReveal.contractAddress :=
                  GameReveal.contractAddress GameReveal.initialState;
                GameReveal.move := GameCreation.move ScenarioFlow.blankForm + 1;
                GameReveal.salt := salt |},
             Some GameReveal.SecretLoaded)
       /\ GameReveal.shownMoveName file = Some name
       /\ JSString.BigInt_0x (GameReveal.saltClean salt)
          = Some (Ethers.fromBigEndian ScenarioFlow.randomBytes).
Proof.
  split.
  - split; [vm_compute; intuition discriminate |].
    repeat split.
  - apply (secret_file_round_trip ScenarioFlow.low32Bytes ScenarioFlow.blankForm
             ScenarioFlow.randomBytes "2024-01-01T00:00:00.000Z"
             GameReveal.initialState).
    + vm_compute; intuition discriminate.
    + reflexivity.
    + reflexivity.
    + reflexivity.
    + reflexivity.
Defined.

(** X2: the salt [generateSalt] renders from 32 random bytes is 0x and
    64 hexadecimal digits, 66 characters; read back as at reveal it is
    the integer the bytes hold, below 2^256; and the commitment made
    from it hashes the move word followed by the 32 random bytes
    themselves. *)
Theorem generateSalt_round_trip
    (keccak256 : list Z -> string) (m : Z) (randomBytes : list Z) :
  List.length randomBytes = 32%nat ->
  forallb Ethers.isByte randomBytes = true ->
  1 <= m <= 5 ->
  String.length (HashHelpers.generateSalt randomBytes) = 66%nat
  /\ JSString.startsWith (HashHelpers.generateSalt randomBytes) "0x" = true
  /\ JSString.allHex (JSString.slice (HashHelpers.generateSalt randomBytes) 2) = true
  /\ JSString.BigInt_0x (GameReveal.saltClean (HashHelpers.generateSalt randomBytes))
     = Some (Ethers.fromBigEndian randomBytes)
  /\ 0 <= Ethers.fromBigEndian randomBytes < 2 ^ 256
  /\ HashHelpers.createCommitment keccak256 m (HashHelpers.generateSalt randomBytes)
     = Return (keccak256 (Ethers.bigEndian 32 m ++ randomBytes)).
Proof.
  intros Hlen Hbytes Hm.
  destruct (BigInt_0x_generateSalt randomBytes Hlen Hbytes) as [Hparse Hrange].
  split.
  { unfold HashHelpers.generateSalt, Ethers.hexlify.
    cbn [String.length]. rewrite length_hexDigits, Hlen. reflexivity. }
  split; [reflexivity |].
  split; [now apply allHex_hexDigits |].
  split; [exact Hparse |].
  split; [exact Hrange |].
  now apply createCommitment_generateSalt.
Qed.

Lemma generateSalt_round_trip_witness :
  (List.length (Ethers.bigEndian 32 255) = 32%nat
   /\ forallb Ethers.isByte (Ethers.bigEndian 32 255) = true
   /\ 1 <= 3 <= 5)
  /\ String.length (HashHelpers.generateSalt (Ethers.bigEndian 32 255)) = 66%nat
  /\ JSString.startsWith (HashHelpers.generateSalt (Ethers.bigEndian 32 255)) "0x" = true
  /\ JSString.allHex
       (JSString.slice (HashHelpers.generateSalt (Ethers.bigEndian 32 255)) 2) = true
  /\ JSString.BigInt_0x
       (GameReveal.saltClean (HashHelpers.generateSalt (Ethers.bigEndian 32 255)))
     = Some (Ethers.fromBigEndian (Ethers.bigEndian 32 255))
  /\ 0 <= Ethers.fromBigEndian (Ethers.bigEndian 32 255) < 2 ^ 256
  /\ HashHelpers.createCommitment Ethers.hexlify 3
       (HashHelpers.generateSalt (Ethers.bigEndian 32 255))
     = Return (Ethers.hexlify (Ethers.bigEndian 32 3 ++ Ethers.bigEndian 32 255)).
Proof.
  split.
  - repeat split; try reflexivity; lia.
  - apply (generateSalt_round_trip Ethers.hexlify 3 (Ethers.bigEndian 32 255));
      [reflexivity | reflexivity | lia].
Defined.

Lemma app_same_length_inj {A : Type} (l1 l2 r1 r2 : list A) :
  List.length l1 = List.length l2 -> l1 ++ r1 = l2 ++ r2 -> l1 = l2 /\ r1 = r2.
Proof.
  revert l2. induction l1 as [| a l1 IH]; intros [| b l2] Hlen H;
    try discriminate.
  - now split.
  - simpl in H. injection H as -> H. injection Hlen as Hlen.
    destruct (IH l2 Hlen H) as [-> ->]. now split.
Qed.

Lemma Return_inj {A : Type} (a b : A) : Return a = Return b -> a = b.
Proof. now intros [= ->]. Qed.

Lemma bigEndian_32_inj (x y : Z) :
  0 <= x < 2 ^ 256 -> 0 <= y < 2 ^ 256 ->
  Ethers.bigEndian 32 x = Ethers.bigEndian 32 y -> x = y.
Proof.
  intros Hx Hy H. apply (f_equal Ethers.fromBigEndian) in H.
  now rewrite !bigEndian_32_value in H.
Qed.

(** X3: the bytes [createCommitment] hashes determine the move and the
    secret: for move codes in 1..5 and 256-bit secrets, two preimages
    are the same byte string only if the moves are the same and the
    secrets are the same.  A commitment is open to a second move or
    secret only through a collision of keccak256. *)
Theorem createCommitment_preimage_injective (m1 m2 s1 s2 : Z) :
  1 <= m1 <= 5 -> 1 <= m2 <= 5 ->
  0 <= s1 < 2 ^ 256 -> 0 <= s2 < 2 ^ 256 ->
  HashHelpers.createCommitment_encoded
    m1 (HashHelpers.generateSalt (Ethers.bigEndian 32 s1))
  = HashHelpers.createCommitment_encoded
      m2 (HashHelpers.generateSalt (Ethers.bigEndian 32 s2)) ->
  m1 = m2 /\ s1 = s2.
Proof.
  intros Hm1 Hm2 Hs1 Hs2.
  rewrite !createCommitment_encoded_secret by assumption.
  intros H. apply Return_inj in H.
  apply app_same_length_inj in H; [| now rewrite !length_bigEndian].
  destruct H as [Hm Hs].
  split; apply bigEndian_32_inj; (assumption || lia).
Qed.

Lemma createCommitment_preimage_injective_witness :
  (1 <= 1 <= 5 /\ 0 <= 7 < 2 ^ 256)
  /\ (HashHelpers.createCommitment_encoded
        1 (HashHelpers.generateSalt (Ethers.bigEndian 32 7))
      = HashHelpers.createCommitment_encoded
          1 (HashHelpers.generateSalt (Ethers.bigEndian 32 7)))
  /\ (1 = 1 /\ 7 = 7).
Proof.
  split; [lia |]. split; [reflexivity |].
  apply (createCommitment_preimage_injective 1 1 7 7); try lia. reflexivity.
Defined.

(** ** GameCreation: the salt, its backup, and the form after creation *)

Section GameCreationFlowFacts.

Variable keccak256 : list Z -> string.
Variable isAddress : string -> bool.
Variable parseEther : string -> option Z.
Variable formatEther : Z -> string.

(** The handler with its backup does to the form what the handler
    without it does. *)
Lemma handleGenerateSalt_same_form (st : GameCreation.state) (randomBytes : list Z)
    (timestamp : Z) (store : LocalStorage.storage) :
  (fst (fst (GameCreationFlow.handleGenerateSalt keccak256 st randomBytes
               timestamp store)),
   snd (GameCreationFlow.handleGenerateSalt keccak256 st randomBytes timestamp store))
  = GameCreation.handleGenerateSalt keccak256 st randomBytes.
Proof.
  unfold GameCreationFlow.handleGenerateSalt, GameCreation.handleGenerateSalt.
  destruct (HashHelpers.createCommitment keccak256 _ _); reflexivity.
Qed.

(** [handleGenerateSalt] on a UI move in 0..4 and 32 random bytes. *)
Lemma handleGenerateSalt_succeeds (st : GameCreation.state) (randomBytes : list Z)
    (timestamp : Z) (store : LocalStorage.storage) :
  0 <= GameCreation.move st <= 4 ->
  List.length randomBytes = 32%nat ->
  forallb Ethers.isByte randomBytes = true ->
  GameCreationFlow.handleGenerateSalt keccak256 st randomBytes timestamp store
  = ({| GameCreation.opponent := GameCreation.opponent st;
        GameCreation.stake := GameCreation.stake st;
        GameCreation.move := GameCreation.move st;
        GameCreation.salt := Ethers.hexlify randomBytes;
        GameCreation.commitment :=
          keccak256 (Ethers.bigEndian 32 (GameCreation.move st + 1) ++ randomBytes) |},
     {| LocalStorage.rps_secret :=
          LocalStorage.Holds
            {| LocalStorage.gd_move := GameCreation.move st + 1;
               LocalStorage.gd_moveName := GameCreation.moveNameAt (GameCreation.move st);
               LocalStorage.gd_salt := Ethers.hexlify randomBytes;
               LocalStorage.gd_commitment :=
                 keccak256 (Ethers.bigEndian 32 (GameCreation.move st + 1)
                            ++ randomBytes);
               LocalStorage.gd_timestamp := timestamp |};
        LocalStorage.rps_games := LocalStorage.rps_games store;
        LocalStorage.rps_current_game := LocalStorage.rps_current_game store;
        LocalStorage.rps_reveals := LocalStorage.rps_reveals store |},
     GameCreation.SaltGenerated).
Proof.
  intros Hm Hlen Hbytes. unfold GameCreationFlow.handleGenerateSalt.
  assert (Hmove : HashHelpers.uiMoveToContract (GameCreation.move st)
                  = GameCreation.move st + 1)
    by (unfold HashHelpers.uiMoveToContract; apply add_exact; lia).
  rewrite Hmove.
  rewrite (createCommitment_generateSalt keccak256 (GameCreation.move st + 1)
             randomBytes Hlen Hbytes) by lia.
  reflexivity.
Qed.

(** X4: Generate Salt, on a UI move in 0..4 and 32 random bytes, puts
    in the form a salt and a commitment that belong together (the
    commitment is what [createCommitment] gives for the form's move
    and salt), writes the same move code, salt and commitment to the
    backup under rps_secret, and leaves the opponent, the stake and the
    move of the form as they were.  On a move outside 0..4 it changes
    neither the form nor the storage, and alerts the error. *)
Theorem handleGenerateSalt_keeps_salt_and_commitment_together
    (st : GameCreation.state) (randomBytes : list Z)
    (timestamp : Z) (store : LocalStorage.storage) :
  List.length randomBytes = 32%nat ->
  forallb Ethers.isByte randomBytes = true ->
  JSNumber.isSafeInteger (GameCreation.move st) = true ->
  (0 <= GameCreation.move st <= 4 ->
   exists st' store',
     GameCreationFlow.handleGenerateSalt keccak256 st randomBytes timestamp store
     = (st', store', GameCreation.SaltGenerated)
     /\ HashHelpers.createCommitment keccak256
          (HashHelpers.uiMoveToContract (GameCreation.move st'))
          (GameCreation.salt st')
        = Return (GameCreation.commitment st')
     /\ GameCreation.salt st' = HashHelpers.generateSalt randomBytes
     /\ GameCreation.opponent st' = GameCreation.opponent st
     /\ GameCreation.stake st' = GameCreation.stake st
     /\ GameCreation.move st' = GameCreation.move st
     /\ exists backup,
          LocalStorage.rps_secret store' = LocalStorage.Holds backup
          /\ LocalStorage.gd_move backup
             = HashHelpers.uiMoveToContract (GameCreation.move st')
          /\ LocalStorage.gd_salt backup = GameCreation.salt st'
          /\ LocalStorage.gd_commitment backup = GameCreation.commitment st')
  /\ (GameCreation.move st < 0 \/ 4 < GameCreation.move st ->
      GameCreationFlow.handleGenerateSalt keccak256 st randomBytes timestamp store
      = (st, store, GameCreation.ErrorGeneratingSalt)).
Proof.
  intros Hlen Hbytes Hsafe. apply isSafeInteger_bounds in Hsafe.
  assert (Hmove : HashHelpers.uiMoveToContract (GameCreation.move st)
                  = GameCreation.move st + 1)
    by (unfold HashHelpers.uiMoveToContract; apply add_exact; lia).
  split.
  - intros Hm.
    rewrite (handleGenerateSalt_succeeds st randomBytes timestamp store Hm Hlen Hbytes).
    eexists. eexists. split; [reflexivity |].
    cbn [GameCreation.move GameCreation.salt GameCreation.commitment
         GameCreation.opponent GameCreation.stake].
    rewrite Hmove.
    split; [apply createCommitment_generateSalt; (assumption || lia) |].
    repeat split.
    eexists. split; [reflexivity |]. repeat split.
  - intros Hout. unfold GameCreationFlow.handleGenerateSalt.
    rewrite Hmove.
    unfold HashHelpers.createCommitment, HashHelpers.createCommitment_encoded.
    destruct (GameCreation.move st + 1 <? 1) eqn:E1; [reflexivity |].
    destruct (5 <? GameCreation.move st + 1) eqn:E5; [reflexivity |].
    apply Z.ltb_ge in E1. apply Z.ltb_ge in E5. lia.
Qed.

(** X5: the backup outlives the creation of the game.  After Generate
    Salt and a game created from the form, the form no longer holds
    the salt, and Load from localStorage on the reveal form restores
    the contract move code and the salt that were committed. *)
Theorem backup_restores_secret_after_creation
    (st : GameCreation.state) (randomBytes : list Z) (timestamp : Z)
    (store : LocalStorage.storage) (signer deployed : option string) (now : string)
    (reveal : GameReveal.state) (st' : GameCreation.state)
    (store' : LocalStorage.storage) (contractAddress : string) :
  0 <= GameCreation.move st <= 4 ->
  List.length randomBytes = 32%nat ->
  forallb Ethers.isByte randomBytes = true ->
  GameCreationFlow.handleCreateGame isAddress parseEther formatEther
    (fst (fst (GameCreationFlow.handleGenerateSalt keccak256 st randomBytes
                 timestamp store)))
    signer deployed now
    (snd (fst (GameCreationFlow.handleGenerateSalt keccak256 st randomBytes
                 timestamp store)))
  = (st', store', GameCreationFlow.Created contractAddress) ->
  GameCreation.salt st' = EmptyString
  /\ GameRevealFlow.handleLoadFromStorage reveal (LocalStorage.rps_secret store')
     = ({| GameReveal.contractAddress := GameReveal.contractAddress reveal;
           GameReveal.move := GameCreation.move st + 1;
           GameReveal.salt := HashHelpers.generateSalt randomBytes |},
        GameRevealFlow.SecretLoadedFromStorage).
Proof.
  intros Hm Hlen Hbytes.
  rewrite (handleGenerateSalt_succeeds st randomBytes timestamp store Hm Hlen Hbytes).
  cbn [fst snd]. unfold GameCreationFlow.handleCreateGame.
  destruct (GameCreation.handleCreateGame isAddress parseEther _ signer);
    [discriminate |].
  destruct deployed; [| discriminate].
  destruct signer; [| discriminate].
  destruct (LocalStorage.readArray _); [| discriminate].
  intros [= <- <- _]. split; reflexivity.
Qed.

(** X6: the backup has one slot.  After two runs of Generate Salt, Load
    from localStorage restores the move and the salt of the second run,
    whatever the first one wrote. *)
Theorem backup_holds_latest_secret
    (st1 st2 : GameCreation.state) (bytes1 bytes2 : list Z) (t1 t2 : Z)
    (store : LocalStorage.storage) (reveal : GameReveal.state) :
  0 <= GameCreation.move st2 <= 4 ->
  List.length bytes2 = 32%nat ->
  forallb Ethers.isByte bytes2 = true ->
  GameRevealFlow.handleLoadFromStorage reveal
    (LocalStorage.rps_secret
       (snd (fst (GameCreationFlow.handleGenerateSalt keccak256 st2 bytes2 t2
                    (snd (fst (GameCreationFlow.handleGenerateSalt keccak256 st1
                                 bytes1 t1 store)))))))
  = ({| GameReveal.contractAddress := GameReveal.contractAddress reveal;
        GameReveal.move := GameCreation.move st2 + 1;
        GameReveal.salt := HashHelpers.generateSalt bytes2 |},
     GameRevealFlow.SecretLoadedFromStorage).
Proof.
  intros Hm Hlen Hbytes.
  rewrite (handleGenerateSalt_succeeds st2 bytes2 t2 _ Hm Hlen Hbytes).
  reflexivity.
Qed.

(** X7: a click on Deploy Game Contract either ends in Created, or
    leaves the form and the storage exactly as they were (a refused
    form, a rejected deployment, an unreadable list of games).  When
    it ends in Created, the opponent, the salt and the commitment of
    the form are cleared and the stake and the move kept; the game is
    appended to the list under rps_games with the salt, the commitment
    and the move code of the form; the backup under rps_secret is not
    touched; Download Secret on the cleared form is refused, and a
    second click deploys nothing. *)
Theorem handleCreateGame_all_or_nothing
    (st : GameCreation.state) (signer deployed : option string) (now : string)
    (store : LocalStorage.storage) :
  (exists contractAddress games creator,
     GameCreationFlow.handleCreateGame isAddress parseEther formatEther
       st signer deployed now store
     = ({| GameCreation.opponent := EmptyString;
           GameCreation.stake := GameCreation.stake st;
           GameCreation.move := GameCreation.move st;
           GameCreation.salt := EmptyString;
           GameCreation.commitment := EmptyString |},
        {| LocalStorage.rps_secret := LocalStorage.rps_secret store;
           LocalStorage.rps_games :=
             LocalStorage.Holds
               (games
                ++ [ {| LocalStorage.sg_contractAddress := contractAddress;
                        LocalStorage.sg_j1 := creator;
                        LocalStorage.sg_j2 := GameCreation.opponent st;
                        LocalStorage.sg_stake :=
                          match parseEther (GameCreation.stake st) with
                          | Some v => formatEther v
                          | None => EmptyString
                          end;
                        LocalStorage.sg_move :=
                          HashHelpers.uiMoveToContract (GameCreation.move st);
                        LocalStorage.sg_moveName :=
                          GameCreation.moveNameAt (GameCreation.move st);
                        LocalStorage.sg_salt := GameCreation.salt st;
                        LocalStorage.sg_commitment := GameCreation.commitment st;
                        LocalStorage.sg_createdAt := now |} ]);
           LocalStorage.rps_current_game := Some contractAddress;
           LocalStorage.rps_reveals := LocalStorage.rps_reveals store |},
        GameCreationFlow.Created contractAddress)
     /\ deployed = Some contractAddress /\ signer = Some creator
     /\ LocalStorage.readArray (LocalStorage.rps_games store) = Some games
     /\ (forall now',
           GameCreation.handleDownloadSecret
             (fst (fst (GameCreationFlow.handleCreateGame isAddress parseEther
                          formatEther st signer deployed now store))) now'
           = inl GameCreation.GenerateSaltFirst)
     /\ (forall signer' deployed' now' store',
           snd (GameCreationFlow.handleCreateGame isAddress parseEther formatEther
                  (fst (fst (GameCreationFlow.handleCreateGame isAddress parseEther
                               formatEther st signer deployed now store)))
                  signer' deployed' now' store')
           = GameCreationFlow.NotDeployed GameCreation.GenerateSaltAndSaveFirst))
  \/ (fst (GameCreationFlow.handleCreateGame isAddress parseEther formatEther
             st signer deployed now store) = (st, store)
      /\ forall contractAddress,
           snd (GameCreationFlow.handleCreateGame isAddress parseEther formatEther
                  st signer deployed now store)
           = GameCreationFlow.Created contractAddress -> False).
Proof.
  unfold GameCreationFlow.handleCreateGame at 1 2 4 5 6.
  destruct (GameCreation.handleCreateGame isAddress parseEther st signer)
    as [a | c opp v] eqn:Hc.
  - right. split; [reflexivity | discriminate].
  - apply handleCreateGame_deploys in Hc.
    destruct Hc as (creator & -> & _ & _ & _ & Hp & _).
    destruct deployed as [contractAddress |];
      [| right; split; [reflexivity | discriminate]].
    destruct (LocalStorage.readArray (LocalStorage.rps_games store))
      as [games |] eqn:Hg;
      [| right; split; [reflexivity | discriminate]].
    left. exists contractAddress, games, creator.
    rewrite Hp. cbn [fst snd]. repeat split.
Qed.

End GameCreationFlowFacts.

Lemma handleGenerateSalt_together_witness :
  (List.length ScenarioFlow.randomBytes = 32%nat
   /\ forallb Ethers.isByte ScenarioFlow.randomBytes = true
   /\ JSNumber.isSafeInteger (GameCreation.move ScenarioFlow.blankForm) = true
   /\ 0 <= GameCreation.move ScenarioFlow.blankForm <= 4)
  /\ exists st' store',
       GameCreationFlow.handleGenerateSalt ScenarioFlow.textOfBytes
         ScenarioFlow.blankForm ScenarioFlow.randomBytes 1700000000000
         LocalStorage.empty
       = (st', store', GameCreation.SaltGenerated)
       /\ HashHelpers.createCommitment ScenarioFlow.textOfBytes
            (HashHelpers.uiMoveToContract (GameCreation.move st'))
            (GameCreation.salt st')
          = Return (GameCreation.commitment st')
       /\ GameCreation.salt st' = HashHelpers.generateSalt ScenarioFlow.randomBytes
       /\ GameCreation.opponent st' = GameCreation.opponent ScenarioFlow.blankForm
       /\ GameCreation.stake st' = GameCreation.stake ScenarioFlow.blankForm
       /\ GameCreation.move st' = GameCreation.move ScenarioFlow.blankForm
       /\ exists backup,
            LocalStorage.rps_secret store' = LocalStorage.Holds backup
            /\ LocalStorage.gd_move backup
               = HashHelpers.uiMoveToContract (GameCreation.move st')
            /\ LocalStorage.gd_salt backup = GameCreation.salt st'
            /\ LocalStorage.gd_commitment backup = GameCreation.commitment st'.
Proof.
  split.
  - repeat split; try reflexivity; vm_compute; discriminate.
  - apply (proj1 (handleGenerateSalt_keeps_salt_and_commitment_together
                    ScenarioFlow.textOfBytes ScenarioFlow.blankForm
                    ScenarioFlow.randomBytes 1700000000000 LocalStorage.empty
                    eq_refl eq_refl eq_refl)).
    vm_compute. split; discriminate.
Defined.

Lemma backup_restores_secret_witness :
  (0 <= GameCreation.move ScenarioFlow.blankForm <= 4
   /\ List.length ScenarioFlow.randomBytes = 32%nat
   /\ forallb Ethers.isByte ScenarioFlow.randomBytes = true)
  /\ exists st' store',
       GameCreationFlow.handleCreateGame Ethers.isAddress Ethers.parseEther
         Ethers.formatEther
         (fst (fst (GameCreationFlow.handleGenerateSalt ScenarioFlow.textOfBytes
                      ScenarioFlow.blankForm ScenarioFlow.randomBytes 1700000000000
                      LocalStorage.empty)))
         (Some Scenario.alice) (Some Scenario.game) "2024-01-01T00:00:00.000Z"
         (snd (fst (GameCreationFlow.handleGenerateSalt ScenarioFlow.textOfBytes
                      ScenarioFlow.blankForm ScenarioFlow.randomBytes 1700000000000
                      LocalStorage.empty)))
       = (st', store', GameCreationFlow.Created Scenario.game)
       /\ GameCreation.salt st' = EmptyString
       /\ GameRevealFlow.handleLoadFromStorage GameReveal.initialState
            (LocalStorage.rps_secret store')
          = ({| GameReveal.contractAddress :=
                  GameReveal.contractAddress GameReveal.initialState;
                GameReveal.move := GameCreation.move ScenarioFlow.blankForm + 1;
                GameReveal.salt := HashHelpers.generateSalt ScenarioFlow.randomBytes |},
             GameRevealFlow.SecretLoadedFromStorage).
Proof.
  split.
  - repeat split; try reflexivity; vm_compute; discriminate.
  - eexists. eexists. split; [vm_compute; reflexivity |].
    eapply (backup_restores_secret_after_creation ScenarioFlow.textOfBytes
              Ethers.isAddress Ethers.parseEther Ethers.formatEther
              ScenarioFlow.blankForm ScenarioFlow.randomBytes 1700000000000
              LocalStorage.empty (Some Scenario.alice) (Some Scenario.game)
              "2024-01-01T00:00:00.000Z" GameReveal.initialState).
    + vm_compute. split; discriminate.
    + reflexivity.
    + reflexivity.
    + vm_compute. reflexivity.
Defined.

Lemma backup_holds_latest_secret_witness :
  (0 <= GameCreation.move ScenarioFlow.blankForm <= 4
   /\ List.length ScenarioFlow.randomBytes = 32%nat
   /\ forallb Ethers.isByte ScenarioFlow.randomBytes = true)
  /\ GameRevealFlow.handleLoadFromStorage GameReveal.initialState
       (LocalStorage.rps_secret
          (snd (fst (GameCreationFlow.handleGenerateSalt ScenarioFlow.textOfBytes
                       ScenarioFlow.blankForm ScenarioFlow.randomBytes 1700000000001
                       (snd (fst (GameCreationFlow.handleGenerateSalt
                                    ScenarioFlow.textOfBytes ScenarioFlow.blankForm
                                    (Ethers.bigEndian 32 7) 1700000000000
                                    LocalStorage.empty)))))))
     = ({| GameReveal.contractAddress :=
             GameReveal.contractAddress GameReveal.initialState;
           GameReveal.move := GameCreation.move ScenarioFlow.blankForm + 1;
           GameReveal.salt := HashHelpers.generateSalt ScenarioFlow.randomBytes |},
        GameRevealFlow.SecretLoadedFromStorage).
Proof.
  split.
  - repeat split; try reflexivity; vm_compute; discriminate.
  - apply (backup_holds_latest_secret ScenarioFlow.textOfBytes
             ScenarioFlow.blankForm ScenarioFlow.blankForm
             (Ethers.bigEndian 32 7) ScenarioFlow.randomBytes
             1700000000000 1700000000001 LocalStorage.empty GameReveal.initialState).
    + vm_compute. split; discriminate.
    + reflexivity.
    + reflexivity.
Defined.

(** ** GameReveal: the secret file and the form after the reveal *)

(** X9: Upload Secret either takes the move and the salt of the file
    together, or leaves the reveal form exactly as it was: a file that
    is no JSON, or whose move is absent or 0, or whose salt is absent
    or empty, changes nothing.  The contract address is taken from the
    file when the file holds one, and kept otherwise.  The move of the
    file is not checked against 1..5 here. *)
Theorem handleUploadSecret_all_or_nothing (st : GameReveal.state) (file : GameReveal.upload) :
  (exists secret m s,
     file = GameReveal.Parsed secret
     /\ sf_move secret = Some m /\ m <> 0
     /\ sf_salt secret = Some s /\ s <> EmptyString
     /\ GameReveal.handleUploadSecret st file
        = ({| GameReveal.contractAddress :=
                match sf_contractAddress secret with
                | Some (String c rest) => String c rest
                | _ => GameReveal.contractAddress st
                end;
              GameReveal.move := m;
              GameReveal.salt := s |},
           Some GameReveal.SecretLoaded))
  \/ (fst (GameReveal.handleUploadSecret st file) = st
      /\ (snd (GameReveal.handleUploadSecret st file) = None
          \/ snd (GameReveal.handleUploadSecret st file)
             = Some GameReveal.InvalidSecretFile)).
Proof.
  destruct file as [| | secret]; [right; split; auto | right; split; auto |].
  unfold GameReveal.handleUploadSecret, GameReveal.moveFalsy,
    GameReveal.stringFalsy, JSNumber.falsy.
  destruct (sf_move secret) as [m |] eqn:Em; [| right; split; auto].
  destruct (m =? 0) eqn:E0; [right; split; auto |].
  destruct (sf_salt secret) as [s |] eqn:Es; [| right; split; auto].
  destruct s as [| c s]; [right; split; auto |].
  left. exists secret, m, (String c s).
  apply Z.eqb_neq in E0. rewrite Em, Es.
  repeat split; try assumption; try discriminate.
  cbn [orb JSString.falsy].
  destruct (sf_contractAddress secret) as [[| c' a] |]; reflexivity.
Qed.

Section GameRevealFlowFacts.

Variable isAddress : string -> bool.

(** X8: a click on Reveal Move either ends in Revealed, or leaves the
    form and the storage exactly as they were (a refused form, a
    failed transaction, an unreadable list of reveals).  When it ends
    in Revealed, the salt of the form is cleared, the reveal is
    appended to the list under rps_reveals with the move and the hash
    of the transaction, and a second click sends nothing: it asks for
    the secret to be loaded. *)
Theorem handleReveal_all_or_nothing
    (st : GameReveal.state) (signer : option string) (tx : string + string)
    (now : string) (store : LocalStorage.storage) :
  (exists txHash reveals,
     tx = inl txHash
     /\ LocalStorage.readArray (LocalStorage.rps_reveals store) = Some reveals
     /\ GameRevealFlow.handleReveal isAddress st signer tx now store
        = ({| GameReveal.contractAddress := GameReveal.contractAddress st;
              GameReveal.move := GameReveal.move st;
              GameReveal.salt := EmptyString |},
           {| LocalStorage.rps_secret := LocalStorage.rps_secret store;
              LocalStorage.rps_games := LocalStorage.rps_games store;
              LocalStorage.rps_current_game := LocalStorage.rps_current_game store;
              LocalStorage.rps_reveals :=
                LocalStorage.Holds
                  (reveals
                   ++ [ {| LocalStorage.sr_contractAddress :=
                             GameReveal.contractAddress st;
                           LocalStorage.sr_move := GameReveal.move st;
                           LocalStorage.sr_moveName :=
                             GameRevealFlow.moveNameOf (GameReveal.move st);
                           LocalStorage.sr_revealedAt := now;
                           LocalStorage.sr_txHash := txHash |} ]) |},
           GameRevealFlow.Revealed txHash)
     /\ (forall signer' tx' now' store',
           snd (GameRevealFlow.handleReveal isAddress
                  (fst (fst (GameRevealFlow.handleReveal isAddress st signer tx
                               now store)))
                  signer' tx' now' store')
           = GameRevealFlow.NotSent GameReveal.LoadSecretFirst))
  \/ (fst (GameRevealFlow.handleReveal isAddress st signer tx now store) = (st, store)
      /\ forall txHash,
           snd (GameRevealFlow.handleReveal isAddress st signer tx now store)
           = GameRevealFlow.Revealed txHash -> False).
Proof.
  unfold GameRevealFlow.handleReveal at 1 3 4 5.
  destruct (GameReveal.handleReveal isAddress st signer) as [a | m s] eqn:Hr.
  - right. split; [reflexivity | discriminate].
  - destruct tx as [txHash | message];
      [| right; split; [reflexivity | discriminate]].
    destruct (LocalStorage.readArray (LocalStorage.rps_reveals store))
      as [reveals |] eqn:Hg;
      [| right; split; [reflexivity | discriminate]].
    left. exists txHash, reveals. cbn [fst snd].
    split; [reflexivity |]. split; [reflexivity |]. split; [reflexivity |].
    intros signer' tx' now' store'.
    unfold GameRevealFlow.handleReveal, GameReveal.handleReveal.
    cbn [GameReveal.contractAddress GameReveal.salt JSString.falsy].
    unfold GameReveal.handleReveal in Hr.
    destruct (JSString.falsy (GameReveal.contractAddress st)
              || negb (isAddress (GameReveal.contractAddress st)));
      [discriminate | reflexivity].
Qed.

End GameRevealFlowFacts.

(** ** GameJoin: what a join sends *)

(** X10: when the second move is not played, the caller is player 2
    and the UI move is in 0..4, Load Game Info followed by Join Game
    sends play with the contract code of the move, in 1..5, and with
    exactly the stake read from the contract as value, provided the
    amount survives its passage through the text shown to the user
    ([parseEther] of [formatEther] gives it back). *)
Theorem join_sends_the_stake_of_the_contract
    (isAddress : string -> bool) (formatEther : Z -> string)
    (parseEther : string -> option Z)
    (address : string) (uiMove : Z) (r : contractReads) (caller : string) :
  JSString.falsy address = false -> isAddress address = true ->
  c2 r = 0 -> sameAddress caller (j2 r) = true ->
  0 <= uiMove <= 4 ->
  parseEther (formatEther (stake r)) = Some (stake r) ->
  GameJoin.loadThenJoin isAddress formatEther parseEther address uiMove
    (Some r) (Some caller)
  = GameJoin.Play (uiMove + 1) (stake r)
  /\ 1 <= uiMove + 1 <= 5.
Proof.
  intros Hne Haddr Hc2 Hj2 Hmove Hround.
  split; [| lia].
  unfold GameJoin.loadThenJoin, GameJoin.handleJoinGame, GameJoin.loadGameInfo.
  cbn [GameJoin.contractAddress]. rewrite Hne, Haddr.
  cbn [orb negb fst GameJoin.info GameJoin.hasPlayed GameJoin.isJ2
       GameJoin.gi_stake GameJoin.move].
  rewrite Hc2, Hj2, Hround.
  unfold HashHelpers.uiMoveToContract. rewrite add_exact by lia.
  reflexivity.
Qed.

Lemma join_sends_the_stake_witness :
  (JSString.falsy Scenario.game = false /\ Ethers.isAddress Scenario.game = true
   /\ c2 Scenario.created = 0
   /\ sameAddress Scenario.bob (j2 Scenario.created) = true
   /\ 0 <= 4 <= 4
   /\ Ethers.parseEther (Ethers.formatEther (stake Scenario.created))
      = Some (stake Scenario.created))
  /\ GameJoin.loadThenJoin Ethers.isAddress Ethers.formatEther Ethers.parseEther
       Scenario.game 4 (Some Scenario.created) (Some Scenario.bob)
     = GameJoin.Play (4 + 1) (stake Scenario.created)
  /\ 1 <= 4 + 1 <= 5.
Proof.
  split.
  - repeat split; try reflexivity; vm_compute; discriminate.
  - apply (join_sends_the_stake_of_the_contract Ethers.isAddress Ethers.formatEther
             Ethers.parseEther Scenario.game 4 Scenario.created Scenario.bob);
      try reflexivity.
    vm_compute. split; discriminate.
Defined.

(** ** GameStatus: the outcomes of a timeout click, the players, the names *)

Lemma sameAddress_trans_sym (a b c : string) :
  sameAddress a b = true -> sameAddress a c = true -> sameAddress b c = true.
Proof.
  unfold sameAddress. intros Hab Hac.
  apply String.eqb_eq in Hab. apply String.eqb_eq in Hac.
  apply String.eqb_eq. congruence.
Qed.

Section GameStatusMoreFacts.

Variable isAddress : string -> bool.
Variable formatEther : Z -> string.


(** X12: a wallet is marked as player 1 and as player 2 at once only
    when the two players of the contract are one address, compared
    without regard to case; for two distinct players, at most one of
    the two marks is set, so at most one of the two timeout
    transactions can ever be sent from a loaded state. *)
Theorem signer_is_one_player_at_most (address : string) (r : contractReads)
    (signerAddress : string) (now : Z) (gs : GameStatus.gameState) :
  GameStatus.loadGameState isAddress formatEther address
    (Some r) (Some signerAddress) now = GameStatus.Loaded gs ->
  (GameStatus.isJ1 gs = true -> GameStatus.isJ2 gs = true ->
   sameAddress (j1 r) (j2 r) = true)
  /\ (sameAddress (j1 r) (j2 r) = false ->
      GameStatus.isJ1 gs && GameStatus.isJ2 gs = false)
  /\ GameStatus.isJ1 gs = sameAddress (GameStatus.userAddress gs) (GameStatus.gs_j1 gs)
  /\ GameStatus.isJ2 gs = sameAddress (GameStatus.userAddress gs) (GameStatus.gs_j2 gs).
Proof.
  unfold GameStatus.loadGameState.
  destruct (JSString.falsy address || negb (isAddress address)); [discriminate |].
  intros [= <-]. cbn.
  split; [apply sameAddress_trans_sym |].
  split; [| split; reflexivity].
  intros Hdiff.
  destruct (sameAddress signerAddress (j1 r)) eqn:E1; [| reflexivity].
  destruct (sameAddress signerAddress (j2 r)) eqn:E2; [| reflexivity].
  rewrite (sameAddress_trans_sym _ _ _ E1 E2) in Hdiff. discriminate.
Qed.

(** X13: the name Game Status shows for the second move is the name
    the player picked: when the contract holds the code of the UI move
    u, 0..4, the state loaded names it as the join and creation forms
    name u, and never as Unknown or Not played; while player 2 has not
    played the name shown is Null. *)
Theorem second_move_name_round_trip (address : string) (r : contractReads)
    (signerAddress : string) (now : Z) (gs : GameStatus.gameState) (u : Z) :
  GameStatus.loadGameState isAddress formatEther address
    (Some r) (Some signerAddress) now = GameStatus.Loaded gs ->
  (0 <= u <= 4 -> c2 r = HashHelpers.uiMoveToContract u ->
   GameStatus.c2Name gs = HashHelpers.getMoveName u
   /\ GameCreation.moveNameAt u = Some (GameStatus.c2Name gs)
   /\ GameRevealFlow.moveNameOf (c2 r) = Some (GameStatus.c2Name gs)
   /\ String.eqb (GameStatus.c2Name gs) "Unknown" = false
   /\ String.eqb (GameStatus.c2Name gs) "Not played" = false)
  /\ (c2 r = 0 -> GameStatus.c2Name gs = "Null"%string).
Proof.
  unfold GameStatus.loadGameState.
  destruct (JSString.falsy address || negb (isAddress address)); [discriminate |].
  intros [= <-]. cbn [GameStatus.c2Name].
  split.
  - intros Hu ->.
    assert (Hcases : u = 0 \/ u = 1 \/ u = 2 \/ u = 3 \/ u = 4) by lia.
    destruct Hcases as [-> | [-> | [-> | [-> | ->]]]]; repeat split.
  - intros ->. reflexivity.
Qed.

End GameStatusMoreFacts.


Lemma signer_is_one_player_witness :
  exists gs,
    GameStatus.loadGameState Ethers.isAddress Ethers.formatEther Scenario.game
      (Some Scenario.joined) (Some Scenario.bob) 2000 = GameStatus.Loaded gs
    /\ sameAddress (j1 Scenario.joined) (j2 Scenario.joined) = false
    /\ GameStatus.isJ1 gs && GameStatus.isJ2 gs = false.
Proof.
  eexists. split; [reflexivity |]. split; [reflexivity |].
  exact (proj1 (proj2 (signer_is_one_player_at_most Ethers.isAddress
                         Ethers.formatEther Scenario.game Scenario.joined
                         Scenario.bob 2000 _ eq_refl))
               eq_refl).
Defined.

Lemma second_move_name_witness :
  exists gs,
    GameStatus.loadGameState Ethers.isAddress Ethers.formatEther Scenario.game
      (Some Scenario.joined) (Some Scenario.bob) 2000 = GameStatus.Loaded gs
    /\ (0 <= 2 <= 4 /\ c2 Scenario.joined = HashHelpers.uiMoveToContract 2)
    /\ GameStatus.c2Name gs = HashHelpers.getMoveName 2
    /\ GameCreation.moveNameAt 2 = Some (GameStatus.c2Name gs)
    /\ GameRevealFlow.moveNameOf (c2 Scenario.joined) = Some (GameStatus.c2Name gs)
    /\ String.eqb (GameStatus.c2Name gs) "Unknown" = false
    /\ String.eqb (GameStatus.c2Name gs) "Not played" = false.
Proof.
  eexists. split; [reflexivity |].
  split; [split; [vm_compute; split; discriminate | reflexivity] |].
  apply (proj1 (second_move_name_round_trip Ethers.isAddress Ethers.formatEther
                  Scenario.game Scenario.joined Scenario.bob 2000 _ 2 eq_refl)).
  - vm_compute. split; discriminate.
  - reflexivity.
Defined.

(** ** The salt as text, and the join against the status *)

(** X14: the commitment depends on the text of the salt only through
    the integer the text is read as at reveal: two salts that parse to
    the same integer (with or without 0x, in either case of the
    digits, with more or fewer zeros in front) give the same result of
    [createCommitment] for the same move, be it a commitment or an
    error. *)
Theorem createCommitment_depends_on_salt_value
    (keccak256 : list Z -> string) (m : Z) (salt1 salt2 : string) (v : Z) :
  JSString.BigInt_0x (GameReveal.saltClean salt1) = Some v ->
  JSString.BigInt_0x (GameReveal.saltClean salt2) = Some v ->
  HashHelpers.createCommitment keccak256 m salt1
  = HashHelpers.createCommitment keccak256 m salt2.
Proof.
  intros H1 H2. apply BigInt_0x_padStart in H1. apply BigInt_0x_padStart in H2.
  unfold HashHelpers.createCommitment, HashHelpers.createCommitment_encoded.
  destruct ((m <? 1) || (5 <? m)); [reflexivity |].
  cbv zeta. rewrite !createCommitment_digits, H1, H2. reflexivity.
Qed.

Lemma createCommitment_depends_on_salt_value_witness :
  (JSString.BigInt_0x (GameReveal.saltClean "0x00AB") = Some 171
   /\ JSString.BigInt_0x (GameReveal.saltClean "ab") = Some 171)
  /\ HashHelpers.createCommitment Ethers.hexlify 4 "0x00AB"
     = HashHelpers.createCommitment Ethers.hexlify 4 "ab".
Proof.
  split; [split; reflexivity |].
  apply (createCommitment_depends_on_salt_value Ethers.hexlify 4 "0x00AB" "ab" 171);
    reflexivity.
Defined.

(** X15: the join form and the status agree on the contract: when Load
    Game Info followed by Join Game sends play, the status loaded from
    the same reads is never in the phase where player 1 has to reveal,
    and for a stake other than zero it is in the phase waiting for
    player 2, where the only timeout on offer is j2Timeout. *)
Theorem join_only_while_waiting_for_player_2
    (isAddress : string -> bool) (formatEther : Z -> string)
    (parseEther : string -> option Z)
    (address : string) (uiMove : Z) (r : contractReads)
    (caller reader : string) (now : Z) (m v : Z) (gs : GameStatus.gameState) :
  0 <= c2 r < 256 ->
  GameJoin.loadThenJoin isAddress formatEther parseEther address uiMove
    (Some r) (Some caller) = GameJoin.Play m v ->
  GameStatus.loadGameState isAddress formatEther address
    (Some r) (Some reader) now = GameStatus.Loaded gs ->
  String.eqb (GameStatus.phase gs) GameStatus.phaseWaitingForReveal = false
  /\ (stake r <> 0 -> GameStatus.phase gs = GameStatus.phaseWaitingForPlayer2)
  /\ (forall signer,
        GameStatus.callTimeout (Some gs) signer = GameStatus.Send_j1Timeout -> False).
Proof.
  intros Hrange Hjoin Hload.
  assert (Hc2 : c2 r = 0).
  { unfold GameJoin.loadThenJoin, GameJoin.handleJoinGame, GameJoin.loadGameInfo
      in Hjoin.
    cbn [GameJoin.contractAddress] in Hjoin.
    destruct (JSString.falsy address || negb (isAddress address));
      [discriminate |].
    cbn [fst GameJoin.info GameJoin.hasPlayed] in Hjoin.
    rewrite toNumber_exact in Hjoin by lia.
    destruct (c2 r =? 0) eqn:E; [now apply Z.eqb_eq in E | discriminate]. }
  pose proof (phase_cases _ _ _ _ _ _ _ Hload) as Hphase.
  apply loadGameState_fields in Hload.
  destruct Hload as (r' & sa & [= <-] & _ & Hs & Hc & _ & _ & _ & Hv & _).
  rewrite Hc2 in Hc. change (JSNumber.toNumber 0) with 0 in Hc.
  rewrite Hc2 in Hphase. change (JSNumber.toNumber 0) with 0 in Hphase.
  destruct Hphase as [[Hz Hp] | [(Hz & _ & Hp) | (_ & Hne & _)]];
    [| | contradiction].
  - rewrite Hp. split; [reflexivity |]. split; [contradiction |].
    intros signer. unfold GameStatus.callTimeout.
    rewrite Hc in Hv.
    destruct (determinePhase_cases (GameStatus.stakeWei gs) 0
                                   (GameStatus.isTimedOut gs))
      as [[_ E] | [(_ & _ & E) | (_ & Hbad & _)]]; [| | contradiction];
      rewrite E in Hv; injection Hv as _ Hct Hf; rewrite Hct, Hf;
      destruct (GameStatus.isTimedOut gs), (GameStatus.isJ1 gs), signer;
      cbn; discriminate.
  - rewrite Hp. split; [reflexivity |]. split; [reflexivity |].
    intros signer. unfold GameStatus.callTimeout.
    rewrite Hc in Hv.
    destruct (determinePhase_cases (GameStatus.stakeWei gs) 0
                                   (GameStatus.isTimedOut gs))
      as [[_ E] | [(_ & _ & E) | (_ & Hbad & _)]]; [| | contradiction];
      rewrite E in Hv; injection Hv as _ Hct Hf; rewrite Hct, Hf;
      destruct (GameStatus.isTimedOut gs), (GameStatus.isJ1 gs), signer;
      cbn; discriminate.
Qed.

Lemma join_only_while_waiting_witness :
  exists gs,
    (0 <= c2 Scenario.created < 256
     /\ GameJoin.loadThenJoin Ethers.isAddress Ethers.formatEther Ethers.parseEther
          Scenario.game 0 (Some Scenario.created) (Some Scenario.bob)
        = GameJoin.Play 1 100000000000000
     /\ GameStatus.loadGameState Ethers.isAddress Ethers.formatEther Scenario.game
          (Some Scenario.created) (Some Scenario.alice) 2000 = GameStatus.Loaded gs)
    /\ String.eqb (GameStatus.phase gs) GameStatus.phaseWaitingForReveal = false
    /\ (stake Scenario.created <> 0 ->
        GameStatus.phase gs = GameStatus.phaseWaitingForPlayer2)
    /\ (forall signer,
          GameStatus.callTimeout (Some gs) signer = GameStatus.Send_j1Timeout -> False).
Proof.
  eexists. split.
  - split; [vm_compute; split; [discriminate | reflexivity] |].
    split; [vm_compute; reflexivity | reflexivity].
  - apply (join_only_while_waiting_for_player_2 Ethers.isAddress Ethers.formatEther
             Ethers.parseEther Scenario.game 0 Scenario.created Scenario.bob
             Scenario.alice 2000 1 100000000000000).
    + vm_compute. split; [discriminate | reflexivity].
    + vm_compute. reflexivity.
    + reflexivity.
Defined.

(** ** GameCreation: the self-play check compares strings *)

Lemma length_toLowerCase (s : string) :
  String.length (JSString.toLowerCase s) = String.length s.
Proof. induction s as [| c r IH]; [reflexivity | simpl; now rewrite IH]. Qed.

Lemma length_slice_prefixed (s : string) :
  JSString.startsWith s "0x" = true ->
  String.length s = S (S (String.length (JSString.slice s 2))).
Proof.
  destruct s as [| a [| b r]]; simpl.
  - discriminate.
  - now rewrite andb_false_r.
  - reflexivity.
Qed.

(** X16: the check against playing oneself compares the two address
    strings in lower case, prefix included.  When the creator types
    their own address without the 0x their wallet reports it with, the
    two strings differ, the check passes, and creation goes on to ask
    for a deployment whose opponent is the creator's own account. *)
Theorem own_address_without_0x_passes_self_play_check
    (isAddress : string -> bool) (parseEther : string -> option Z)
    (st : GameCreation.state) (creator : string) (v : Z) :
  JSString.startsWith creator "0x" = true ->
  GameCreation.opponent st = JSString.slice creator 2 ->
  GameCreation.opponent st <> EmptyString ->
  isAddress (GameCreation.opponent st) = true ->
  GameCreation.salt st <> EmptyString ->
  GameCreation.commitment st <> EmptyString ->
  parseEther (GameCreation.stake st) = Some v ->
  sameAddress (GameCreation.opponent st) creator = false
  /\ GameCreation.handleCreateGame isAddress parseEther st (Some creator)
     = GameCreation.Deploy (GameCreation.commitment st) (GameCreation.opponent st) v
  /\ (JSString.startsWith (GameCreation.opponent st) "0x" = false ->
      account (GameCreation.opponent st) = account creator).
Proof.
  intros Hpre Hopp Hne Haddr Hsalt Hcom Hparse.
  assert (Hdiff : sameAddress (GameCreation.opponent st) creator = false).
  { unfold sameAddress.
    destruct (String.eqb (JSString.toLowerCase (GameCreation.opponent st))
                         (JSString.toLowerCase creator)) eqn:E; [| reflexivity].
    apply String.eqb_eq in E. apply (f_equal String.length) in E.
    rewrite !length_toLowerCase, Hopp in E.
    pose proof (length_slice_prefixed creator Hpre). lia. }
  split; [exact Hdiff |]. split.
  - now apply handleCreateGame_passes.
  - intros Hbare. unfold account. rewrite Hbare, Hpre, Hopp. reflexivity.
Qed.

Lemma own_address_without_0x_witness :
  (JSString.startsWith Scenario.alice "0x" = true
   /\ GameCreation.opponent ScenarioFlow.againstHerself
      = JSString.slice Scenario.alice 2
   /\ Ethers.isAddress (GameCreation.opponent ScenarioFlow.againstHerself) = true
   /\ Ethers.parseEther (GameCreation.stake ScenarioFlow.againstHerself)
      = Some 100000000000000)
  /\ sameAddress (GameCreation.opponent ScenarioFlow.againstHerself) Scenario.alice
     = false
  /\ GameCreation.handleCreateGame Ethers.isAddress Ethers.parseEther
       ScenarioFlow.againstHerself (Some Scenario.alice)
     = GameCreation.Deploy Scenario.commitmentOfAlice
         "00000000000000000000000000000000000000a1" 100000000000000
  /\ (JSString.startsWith (GameCreation.opponent ScenarioFlow.againstHerself) "0x"
      = false ->
      account (GameCreation.opponent ScenarioFlow.againstHerself)
      = account Scenario.alice).
Proof.
  split; [repeat split |].
  apply (own_address_without_0x_passes_self_play_check
           Ethers.isAddress Ethers.parseEther
           ScenarioFlow.againstHerself Scenario.alice 100000000000000);
    first [reflexivity | discriminate].
Defined.
